(** * Air Purifier Monitor: the ingestion pipeline of [server.py]

    A shallow embedding of the message codec, the storage operations, the
    metrics, the queue callback and the reconnecting consumer loop of
    [src/server.py], with the properties of its specification proved or
    refuted on the embedding.

    Conventions.
    - Python floats are IEEE binary64 values: Rocq's primitive [float].
    - Python raises are values of [exn]; a block [try ... except Exception]
      is [try_except], which lets a [BaseException] that is not an
      [Exception] through.
    - The interpreter's and the libraries' own functions ([json.loads],
      [json.dumps], [float] on a string) are parameters of the development.
    - Everything outside the process (database, broker, wall clock) is read
      from an explicit environment: [Env] for one message, [Attempt] for one
      turn of the consumer loop. *)

From stdpp Require Import base option list gmap sets strings.
From Stdlib Require Import ZArith Lia Ascii.
From Stdlib Require Import Floats.PrimFloat Floats.SpecFloat Floats.FloatOps.

Local Open Scope Z_scope.

(** ** Python values read from a message *)

(** What [json.loads] can return: [None], [bool], [int], [float], [str],
    [list] and [dict] with string keys. *)
#[warnings="-register-all"]
Inductive json : Type :=
| JNull
| JBool (b : bool)
| JInt (z : Z)
| JFloat (f : float)
| JStr (s : string)
| JList (l : list json)
| JDict (d : gmap string json).

(** ** Exceptions *)

Inductive exn : Type :=
| JSONDecodeError            (* json.loads on text that is not JSON *)
| AttributeError             (* .get on a value that is not a dict *)
| TypeError                  (* float(None), float([...]), float({...}) *)
| ValueError                 (* float("abc") *)
| OverflowError              (* float(10**400) *)
| ConnectionRefusedError     (* asyncpg.connect cannot reach the database *)
| PostgresError              (* the statement fails on an open connection *)
| AMQPConnectionError        (* pika.exceptions.AMQPConnectionError *)
| AMQPChannelError           (* any other pika failure *)
| HTTPException (status : Z) (* fastapi.HTTPException *)
| KeyboardInterrupt.         (* a BaseException that is not an Exception *)

(** [isinstance(e, Exception)] *)
Definition is_Exception (e : exn) : bool :=
  match e with
  | KeyboardInterrupt => false
  | _ => true
  end.

(** [isinstance(e, pika.exceptions.AMQPConnectionError)] *)
Definition is_AMQPConnectionError (e : exn) : bool :=
  match e with
  | AMQPConnectionError => true
  | _ => false
  end.

(** A computation that returns or raises. *)
Inductive result (A : Type) : Type :=
| Ok (a : A)
| Raise (e : exn).
Arguments Ok {A} a.
Arguments Raise {A} e.

Definition rbind {A B : Type} (r : result A) (k : A -> result B) : result B :=
  match r with
  | Ok a => k a
  | Raise e => Raise e
  end.

Declare Scope result_scope.
Delimit Scope result_scope with result.
Notation "x <- r ;; k" := (rbind r (fun x => k))
  (at level 100, r at next level, right associativity) : result_scope.

(** ** Coercion to float *)

(** [float(n)] for a Python [int]: the nearest binary64 value, ties to even;
    [OverflowError] when that value is not finite. *)
Definition float_of_int (z : Z) : result float :=
  match binary_normalize prec emax z 0 false with
  | S754_infinity _ => Raise OverflowError
  | sf => Ok (SF2Prim sf)
  end.

Section Server.

(** [float(s)] for a Python [str]; [None] stands for [ValueError]. *)
Variable float_of_str : string -> option float.

(** [json.loads]; [None] stands for [json.JSONDecodeError]. *)
Variable json_loads : string -> option json.

(** [json.dumps]. *)
Variable json_dumps : json -> string.

(** [float(v)] for a value that came out of [json.loads]. *)
Definition float_ (v : json) : result float :=
  match v with
  | JNull => Raise TypeError
  | JBool b => Ok (if b then one else zero)
  | JInt z => float_of_int z
  | JFloat f => Ok f
  | JStr s => match float_of_str s with
              | Some f => Ok f
              | None => Raise ValueError
              end
  | JList _ => Raise TypeError
  | JDict _ => Raise TypeError
  end.

(** [data.get(key, 0)]: only a [dict] has the method. *)
Definition get (data : json) (key : string) : result json :=
  match data with
  | JDict d => Ok (default (JInt 0) (d !! key))
  | _ => Raise AttributeError
  end.

(** A reading as it travels: [(co2, humidity, temperature)]. *)
Definition reading : Type := float * float * float.

(** server.py 68-71: the body of a delivery to three floats.
<<
    data = json.loads(body)
    co2 = float(data.get("co2", 0))
    humidity = float(data.get("humidity", 0))
    temperature = float(data.get("temperature", 0))
>> *)
Definition decode (body : string) : result reading :=
  match json_loads body with
  | None => Raise JSONDecodeError
  | Some data =>
      (co2 <- rbind (get data "co2") float_ ;;
       humidity <- rbind (get data "humidity") float_ ;;
       temperature <- rbind (get data "temperature") float_ ;;
       Ok (co2, humidity, temperature))%result
  end.

(** server.py 157-161 (and 121-125): three floats to the body of a message.
<<
    message = json.dumps({"co2": co2, "humidity": humidity,
                          "temperature": temperature})
>> *)
Definition message_dict (x : reading) : json :=
  let '(co2, humidity, temperature) := x in
  JDict (<["co2" := JFloat co2]>
        (<["humidity" := JFloat humidity]>
        (<["temperature" := JFloat temperature]> ∅))).

Definition encode (x : reading) : string := json_dumps (message_dict x).

(** ** The process state and the outside world *)

(** The four module-level Prometheus metrics (server.py 19-22). The counter
    is the number of [inc()] calls. *)
Record Metrics : Type := {
  co2_gauge : float;
  humidity_gauge : float;
  temperature_gauge : float;
  data_received_counter : nat
}.

(** One line of table [sensor_data]. [timestamp] is in microseconds. *)
Record Row : Type := {
  timestamp : Z;
  co2_ppm : float;
  humidity_percent : float;
  temperature_celsius : float
}.

(** The [print] calls of the consumer side, by source line. *)
Inductive LogLine : Type :=
| Processed (x : reading)          (* line 49 *)
| ErrorProcessingData (e : exn)    (* line 51 *)
| WaitingForMessages               (* line 64 *)
| Received (x : reading)           (* line 77 *)
| ErrorProcessingMessage (e : exn) (* line 79 *)
| ConnectionErrorRetrying (e : exn)(* line 88 *)
| ConsumerErrorRetrying (e : exn). (* line 91 *)

(** What the consumer thread does that can be seen from outside. *)
Inductive Event : Type :=
| Printed (l : LogLine)
| BlockingConnection                          (* line 58, attempted *)
| Channel                                     (* line 59 *)
| QueueDeclare (durable : bool)               (* line 62 *)
| BasicQos (prefetch_count : Z)               (* line 82 *)
| BasicConsume                                (* line 83 *)
| BasicAck (delivery_tag : nat)               (* line 76 *)
| BasicNack (delivery_tag : nat) (requeue : bool) (* line 80 *)
| Sleep (seconds : Z).                        (* lines 89, 92 *)

Record World : Type := {
  metrics : Metrics;
  sensor_data : list Row;   (* the table, oldest insert first *)
  open_conns : gset nat;    (* storage connections open now *)
  next_conn : nat;          (* the handle the next connect returns *)
  trace : list Event        (* oldest first *)
}.

(** What the outside does while one message is handled. *)
Record Env : Type := {
  connect_ok : bool;    (* asyncpg.connect succeeds *)
  statement_ok : bool;  (* the SQL statement succeeds *)
  now : Z               (* what datetime.now() reads *)
}.

(** ** State and exceptions *)

Definition M (A : Type) : Type := World -> result A * World.

Definition ret {A : Type} (a : A) : M A := fun w => (Ok a, w).

Definition raise {A : Type} (e : exn) : M A := fun w => (Raise e, w).

Definition bind {A B : Type} (m : M A) (k : A -> M B) : M B :=
  fun w =>
    match m w with
    | (Ok a, w') => k a w'
    | (Raise e, w') => (Raise e, w')
    end.

Declare Scope M_scope.
Delimit Scope M_scope with M.
Bind Scope M_scope with M.
Notation "x <- m ;; k" := (bind m (fun x => k))
  (at level 100, m at next level, right associativity) : M_scope.
Notation "m ;; k" := (bind m (fun _ => k))
  (at level 100, right associativity) : M_scope.

(** A pure computation that may raise, run in place. *)
Definition lift {A : Type} (r : result A) : M A := fun w => (r, w).

(** [try: m] followed by [except] clauses: [clauses e] is the body of the
    first clause that matches [e], if one does. What [m] did before it
    raised stays done; a raise that no clause matches passes through. *)
Definition try_ {A : Type} (m : M A) (clauses : exn -> option (M A)) : M A :=
  fun w =>
    match m w with
    | (Ok a, w') => (Ok a, w')
    | (Raise e, w') =>
        match clauses e with
        | Some h => h w'
        | None => (Raise e, w')
        end
    end.

(** [try: m except Exception as e: h e] *)
Definition try_except {A : Type} (m : M A) (h : exn -> M A) : M A :=
  try_ m (fun e => if is_Exception e then Some (h e) else None).

(** ** Primitive effects *)

Definition set_metrics (f : Metrics -> Metrics) : M unit :=
  fun w => (Ok tt, {| metrics := f (metrics w);
                      sensor_data := sensor_data w;
                      open_conns := open_conns w;
                      next_conn := next_conn w;
                      trace := trace w |}).

Definition co2_gauge_set (v : float) : M unit :=
  set_metrics (fun m => {| co2_gauge := v;
                           humidity_gauge := humidity_gauge m;
                           temperature_gauge := temperature_gauge m;
                           data_received_counter := data_received_counter m |}).

Definition humidity_gauge_set (v : float) : M unit :=
  set_metrics (fun m => {| co2_gauge := co2_gauge m;
                           humidity_gauge := v;
                           temperature_gauge := temperature_gauge m;
                           data_received_counter := data_received_counter m |}).

Definition temperature_gauge_set (v : float) : M unit :=
  set_metrics (fun m => {| co2_gauge := co2_gauge m;
                           humidity_gauge := humidity_gauge m;
                           temperature_gauge := v;
                           data_received_counter := data_received_counter m |}).

Definition data_received_counter_inc : M unit :=
  set_metrics (fun m => {| co2_gauge := co2_gauge m;
                           humidity_gauge := humidity_gauge m;
                           temperature_gauge := temperature_gauge m;
                           data_received_counter := S (data_received_counter m) |}).

(** The world once [evs] have happened after what is in its trace. *)
Definition emitted (evs : list Event) (w : World) : World :=
  {| metrics := metrics w;
     sensor_data := sensor_data w;
     open_conns := open_conns w;
     next_conn := next_conn w;
     trace := trace w ++ evs |}.

Definition emit (ev : Event) : M unit := fun w => (Ok tt, emitted [ev] w).

Definition print (l : LogLine) : M unit := emit (Printed l).

(** [time.sleep(seconds)] *)
Definition time_sleep (seconds : Z) : M unit := emit (Sleep seconds).

(** server.py 29-30: [asyncpg.connect(DATABASE_URL)], a new connection at
    every call. *)
Definition get_db_connection (env : Env) : M nat :=
  fun w =>
    if connect_ok env
    then (Ok (next_conn w),
          {| metrics := metrics w;
             sensor_data := sensor_data w;
             open_conns := {[next_conn w]} ∪ open_conns w;
             next_conn := S (next_conn w);
             trace := trace w |})
    else (Raise ConnectionRefusedError, w).

(** [conn.close()] *)
Definition close (conn : nat) : M unit :=
  fun w => (Ok tt, {| metrics := metrics w;
                      sensor_data := sensor_data w;
                      open_conns := open_conns w ∖ {[conn]};
                      next_conn := next_conn w;
                      trace := trace w |}).

(** [datetime.now()] *)
Definition datetime_now (env : Env) : M Z := ret (now env).

(** The row that the [INSERT] of lines 43-46 writes. *)
Definition row_of (ts : Z) (x : reading) : Row :=
  {| timestamp := ts;
     co2_ppm := x.1.1;
     humidity_percent := x.1.2;
     temperature_celsius := x.2 |}.

(** [conn.execute("INSERT INTO sensor_data ... VALUES ($1, $2, $3, $4)",
    ts, co2, humidity, temperature)] *)
Definition execute_insert (env : Env) (conn : nat) (ts : Z) (x : reading)
  : M unit :=
  fun w =>
    if statement_ok env
    then (Ok tt,
          {| metrics := metrics w;
             sensor_data := sensor_data w ++ [row_of ts x];
             open_conns := open_conns w;
             next_conn := next_conn w;
             trace := trace w |})
    else (Raise PostgresError, w).

(** [SELECT * FROM sensor_data ORDER BY timestamp DESC LIMIT 1] on the rows
    of the table. Among rows with the same, greatest, timestamp SQL leaves
    the choice open; this one takes the oldest insert. *)
Fixpoint select_latest (rows : list Row) : option Row :=
  match rows with
  | [] => None
  | r :: rest =>
      match select_latest rest with
      | Some r' => if timestamp r <? timestamp r' then Some r' else Some r
      | None => Some r
      end
  end.

(** [conn.fetchrow(...)] of that query. *)
Definition fetchrow_latest (env : Env) (conn : nat) : M (option Row) :=
  fun w =>
    if statement_ok env
    then (Ok (select_latest (sensor_data w)), w)
    else (Raise PostgresError, w).

(** ** The ingestion pipeline *)

(** The metrics after lines 36-39 have run on a reading. *)
Definition observe (x : reading) (m : Metrics) : Metrics :=
  {| co2_gauge := x.1.1;
     humidity_gauge := x.1.2;
     temperature_gauge := x.2;
     data_received_counter := S (data_received_counter m) |}.

(** server.py 32-51. *)
Definition process_sensor_data (env : Env) (co2 humidity temperature : float)
  : M unit :=
  try_except
    (co2_gauge_set co2 ;;
     humidity_gauge_set humidity ;;
     temperature_gauge_set temperature ;;
     data_received_counter_inc ;;
     conn <- get_db_connection env ;;
     ts <- datetime_now env ;;
     execute_insert env conn ts (co2, humidity, temperature) ;;
     close conn ;;
     print (Processed (co2, humidity, temperature)))%M
    (fun e => print (ErrorProcessingData e)).

(** server.py 66-80: what the consumer does with one delivery. *)
Definition callback (env : Env) (delivery_tag : nat) (body : string) : M unit :=
  try_except
    (x <- lift (decode body) ;;
     let '(co2, humidity, temperature) := x in
     process_sensor_data env co2 humidity temperature ;;
     emit (BasicAck delivery_tag) ;;
     print (Received (co2, humidity, temperature)))%M
    (fun e =>
       print (ErrorProcessingMessage e) ;;
       emit (BasicNack delivery_tag false))%M.

(** ** The latest reading *)

Inductive latest_response : Type :=
| LatestReading (r : Row)   (* lines 200-205 *)
| NoDataAvailable.          (* line 207 *)

(** server.py 187-210. *)
Definition get_latest_data (env : Env) : M latest_response :=
  try_except
    (conn <- get_db_connection env ;;
     row <- fetchrow_latest env conn ;;
     close conn ;;
     match row with
     | Some r => ret (LatestReading r)
     | None => ret NoDataAvailable
     end)%M
    (fun e => raise (HTTPException 500)).

(** ** The consumer loop *)

(** One message as the broker hands it over, with what the outside does
    while it is handled. *)
Record Delivery : Type := {
  d_tag : nat;
  d_body : string;
  d_env : Env
}.

(** What the broker does during one turn of the loop: each broker call may
    raise, and [start_consuming] hands over some deliveries and then raises
    or returns. *)
Record Attempt : Type := {
  connect_error : option exn;   (* line 58 *)
  channel_error : option exn;   (* line 59 *)
  declare_error : option exn;   (* line 62 *)
  qos_error : option exn;       (* line 82 *)
  register_error : option exn;  (* line 83 *)
  deliveries : list Delivery;   (* during line 85 *)
  consume_end : option exn      (* how line 85 ends; [None]: it returns *)
}.

Definition may_raise (err : option exn) : M unit :=
  match err with
  | Some e => raise e
  | None => ret tt
  end.

(** [channel.start_consuming()] with [callback] registered. *)
Fixpoint start_consuming (ds : list Delivery) (stop : option exn) : M unit :=
  match ds with
  | [] => may_raise stop
  | d :: rest =>
      (callback (d_env d) (d_tag d) (d_body d) ;;
       start_consuming rest stop)%M
  end.

(** server.py 57-85: the [try] block of the loop. *)
Definition connect_and_consume (a : Attempt) : M unit :=
  (emit BlockingConnection ;;
   may_raise (connect_error a) ;;
   may_raise (channel_error a) ;;
   emit Channel ;;
   may_raise (declare_error a) ;;
   emit (QueueDeclare true) ;;
   print WaitingForMessages ;;
   may_raise (qos_error a) ;;
   emit (BasicQos 1) ;;
   may_raise (register_error a) ;;
   emit BasicConsume ;;
   start_consuming (deliveries a) (consume_end a))%M.

(** server.py 87-92: its two [except] clauses, in order. *)
Definition retry_clauses (e : exn) : option (M unit) :=
  if is_AMQPConnectionError e
  then Some (print (ConnectionErrorRetrying e) ;; time_sleep 5)%M
  else if is_Exception e
  then Some (print (ConsumerErrorRetrying e) ;; time_sleep 5)%M
  else None.

(** server.py 56-92: one turn of [while True]. *)
Definition consumer_turn (a : Attempt) : M unit :=
  try_ (connect_and_consume a) retry_clauses.

(** server.py 53-92: the loop, run for as many turns as [turns] describes.
    [Ok tt] is the loop about to start its next turn; [Raise e] is the loop
    left by [e], which ends the thread. *)
Fixpoint rabbitmq_consumer (turns : list Attempt) : M unit :=
  match turns with
  | [] => ret tt
  | a :: rest => (consumer_turn a ;; rabbitmq_consumer rest)%M
  end.

(** ** Outcomes *)

(** The three results the specification gives the handling of a message. *)
Inductive Outcome : Type :=
| Ack
| Reject
| RequeueOrRetry.

(** How the specification has each outcome shown to the broker: [Ack] is
    an acknowledgement; [Reject] and [RequeueOrRetry] are both a negative
    acknowledgement without requeue. *)
Definition transport (o : Outcome) (delivery_tag : nat) : Event :=
  match o with
  | Ack => BasicAck delivery_tag
  | Reject => BasicNack delivery_tag false
  | RequeueOrRetry => BasicNack delivery_tag false
  end.

Definition is_settlement (ev : Event) : bool :=
  match ev with
  | BasicAck _ => true
  | BasicNack _ _ => true
  | _ => false
  end.

(** What happened between [w] and the later [w']. *)
Definition new_events (w w' : World) : list Event :=
  drop (length (trace w)) (trace w').

(** The answers [callback] gives the broker for one delivery. *)
Definition acknowledgement (env : Env) (delivery_tag : nat) (body : string)
    (w : World) : list Event :=
  List.filter is_settlement
    (new_events w (callback env delivery_tag body w).2).

(** The reading held by a row. *)
Definition values (r : Row) : reading :=
  (co2_ppm r, humidity_percent r, temperature_celsius r).

(** The reading shown by the gauges. *)
Definition gauges (m : Metrics) : reading :=
  (co2_gauge m, humidity_gauge m, temperature_gauge m).

(** The store cannot take the reading: no connection, or the insert fails. *)
Definition store_unavailable (env : Env) : Prop :=
  connect_ok env = false \/ statement_ok env = false.

Definition store_available (env : Env) : Prop :=
  connect_ok env = true /\ statement_ok env = true.

(** A field of a decoded reading, against the [dict] it was read from: the
    value under [key] coerced to float, or zero when the key is absent. *)
Definition field (d : gmap string json) (key : string) (v : float) : Prop :=
  match d !! key with
  | Some j => float_ j = Ok v
  | None => v = zero
  end.


(** The keys [decode] reads. *)
Definition message_keys : list string := ["co2"; "humidity"; "temperature"].

(** Every storage connection that is open was handed out earlier. *)
Definition conns_fresh (w : World) : Prop :=
  forall c, c ∈ open_conns w -> (c < next_conn w)%nat.

(** The first raise of a turn of the consumer loop, if it has one. *)
Definition turn_error (a : Attempt) : option exn :=
  match connect_error a with Some e => Some e | None =>
  match channel_error a with Some e => Some e | None =>
  match declare_error a with Some e => Some e | None =>
  match qos_error a with Some e => Some e | None =>
  match register_error a with Some e => Some e | None =>
  consume_end a
  end end end end end.

(** The connection attempts and the waits among the events. *)
Definition is_supervision (ev : Event) : bool :=
  match ev with
  | BlockingConnection => true
  | Sleep _ => true
  | _ => false
  end.

(** What a turn shows of the two: it connects, and when it raised it waits
    five seconds. *)
Definition turn_pattern (a : Attempt) : list Event :=
  match turn_error a with
  | Some _ => [BlockingConnection; Sleep 5]
  | None => [BlockingConnection]
  end.

(** ** The publishing side *)

(** server.py 27. *)
Definition QUEUE_NAME : string := "sensor_data".

(** What [basic_publish] hands to the broker (lines 127-132, 163-168). *)
Record Message : Type := {
  exchange : string;
  routing_key : string;
  m_body : string;
  delivery_mode : Z
}.

(** The [print] calls of the generator, by source line. *)
Inductive PubLog : Type :=
| PublishedToRabbitMQ (x : reading)   (* line 135 *)
| ErrorPublishing (e : exn)           (* line 137 *)
| ErrorGenerating (e : exn).          (* line 140 *)

Inductive PubEvent : Type :=
| PubPrinted (l : PubLog)
| AsyncioSleep (seconds : Z).         (* lines 106, 142 *)

(** The broker as the publishing side sees it. *)
Record Broker : Type := {
  published : list Message;   (* accepted by the broker, oldest first *)
  broker_conns : gset nat;    (* connections of the publishers open now *)
  next_broker_conn : nat;
  pub_trace : list PubEvent   (* oldest first *)
}.

(** What the broker does during one publication: the raise of each call,
    if it raises. *)
Record PubEnv : Type := {
  pub_connect_error : option exn;   (* lines 117, 153 *)
  pub_channel_error : option exn;   (* lines 118, 154 *)
  pub_declare_error : option exn;   (* lines 119, 155 *)
  pub_publish_error : option exn;   (* lines 127, 163 *)
  pub_close_error : option exn      (* lines 134, 170 *)
}.

Definition P (A : Type) : Type := Broker -> result A * Broker.

Definition pret {A : Type} (a : A) : P A := fun b => (Ok a, b).

Definition praise {A : Type} (e : exn) : P A := fun b => (Raise e, b).

Definition pbind {A B : Type} (m : P A) (k : A -> P B) : P B :=
  fun b =>
    match m b with
    | (Ok a, b') => k a b'
    | (Raise e, b') => (Raise e, b')
    end.

Declare Scope P_scope.
Delimit Scope P_scope with P.
Bind Scope P_scope with P.
Notation "x <- m ;; k" := (pbind m (fun x => k))
  (at level 100, m at next level, right associativity) : P_scope.
Notation "m ;; k" := (pbind m (fun _ => k))
  (at level 100, right associativity) : P_scope.

Definition plift {A : Type} (r : result A) : P A := fun b => (r, b).

(** [try: m except Exception as e: h e] on the publishing side. *)
Definition ptry_except {A : Type} (m : P A) (h : exn -> P A) : P A :=
  fun b =>
    match m b with
    | (Ok a, b') => (Ok a, b')
    | (Raise e, b') => if is_Exception e then h e b' else (Raise e, b')
    end.

Definition pmay_raise (err : option exn) : P unit :=
  match err with
  | Some e => praise e
  | None => pret tt
  end.

Definition pemit (ev : PubEvent) : P unit :=
  fun b => (Ok tt, {| published := published b;
                      broker_conns := broker_conns b;
                      next_broker_conn := next_broker_conn b;
                      pub_trace := pub_trace b ++ [ev] |}).

(** [pika.BlockingConnection(pika.URLParameters(RABBITMQ_URL))] *)
Definition blocking_connection (env : PubEnv) : P nat :=
  fun b =>
    match pub_connect_error env with
    | Some e => (Raise e, b)
    | None =>
        (Ok (next_broker_conn b),
         {| published := published b;
            broker_conns := {[next_broker_conn b]} ∪ broker_conns b;
            next_broker_conn := S (next_broker_conn b);
            pub_trace := pub_trace b |})
    end.

(** [channel.basic_publish(...)] *)
Definition basic_publish (env : PubEnv) (m : Message) : P unit :=
  fun b =>
    match pub_publish_error env with
    | Some e => (Raise e, b)
    | None =>
        (Ok tt,
         {| published := published b ++ [m];
            broker_conns := broker_conns b;
            next_broker_conn := next_broker_conn b;
            pub_trace := pub_trace b |})
    end.

(** [connection.close()] *)
Definition connection_close (env : PubEnv) (conn : nat) : P unit :=
  fun b =>
    match pub_close_error env with
    | Some e => (Raise e, b)
    | None =>
        (Ok tt,
         {| published := published b;
            broker_conns := broker_conns b ∖ {[conn]};
            next_broker_conn := next_broker_conn b;
            pub_trace := pub_trace b |})
    end.

(** The message of lines 121-132 and 157-168: the encoded reading, sent
    through the default exchange to [QUEUE_NAME], marked persistent. *)
Definition message_of (x : reading) : Message :=
  {| exchange := "";
     routing_key := QUEUE_NAME;
     m_body := encode x;
     delivery_mode := 2 |}.

(** server.py 153-170, and the same calls at 117-134: connect, open a
    channel, declare the queue, publish, close. *)
Definition publish (env : PubEnv) (x : reading) : P unit :=
  (conn <- blocking_connection env ;;
   pmay_raise (pub_channel_error env) ;;
   pmay_raise (pub_declare_error env) ;;
   basic_publish env (message_of x) ;;
   connection_close env conn)%P.

(** server.py 148-150: the three fields of the request, coerced. *)
Definition request_reading (data : gmap string json) : result reading :=
  (co2 <- rbind (get (JDict data) "co2") float_ ;;
   humidity <- rbind (get (JDict data) "humidity") float_ ;;
   temperature <- rbind (get (JDict data) "temperature") float_ ;;
   Ok (co2, humidity, temperature))%result.

(** The answer of line 172. *)
Inductive publish_response : Type :=
| DataPublished.

(** server.py 144-175. The request body arrives as a [dict]. *)
Definition receive_sensor_data (env : PubEnv) (data : gmap string json)
  : P publish_response :=
  ptry_except
    (x <- plift (request_reading data) ;;
     publish env x ;;
     pret DataPublished)%P
    (fun e => praise (HTTPException 400)).

(** What [random.uniform] returns in one turn of the generator, and what
    the broker does in it. *)
Record Cycle : Type := {
  random_reading : reading;   (* lines 111-113 *)
  cycle_env : PubEnv
}.

(** server.py 109-142: one turn of the generator's [while True]. *)
Definition dummy_cycle (c : Cycle) : P unit :=
  (ptry_except
     (let x := random_reading c in
      ptry_except
        (publish (cycle_env c) x ;;
         pemit (PubPrinted (PublishedToRabbitMQ x)))
        (fun e => pemit (PubPrinted (ErrorPublishing e))))
     (fun e => pemit (PubPrinted (ErrorGenerating e))) ;;
   pemit (AsyncioSleep 30))%P.

Fixpoint dummy_cycles (cycles : list Cycle) : P unit :=
  match cycles with
  | [] => pret tt
  | c :: rest => (dummy_cycle c ;; dummy_cycles rest)%P
  end.

(** server.py 104-142, run for as many turns as [cycles] describes. *)
Definition generate_dummy_data (cycles : list Cycle) : P unit :=
  (pemit (AsyncioSleep 10) ;; dummy_cycles cycles)%P.

(** ** Vocabulary of the further properties *)

(** The first raise of a publication, if it has one. *)
Definition pub_error (env : PubEnv) : option exn :=
  match pub_connect_error env with Some e => Some e | None =>
  match pub_channel_error env with Some e => Some e | None =>
  match pub_declare_error env with Some e => Some e | None =>
  match pub_publish_error env with Some e => Some e | None =>
  pub_close_error env
  end end end end.

(** The broker has accepted the message: nothing raised up to and including
    [basic_publish]. *)
Definition accepted (env : PubEnv) : bool :=
  match pub_connect_error env, pub_channel_error env,
        pub_declare_error env, pub_publish_error env with
  | None, None, None, None => true
  | _, _, _, _ => false
  end.

(** The first raise of a turn of the consumer loop before
    [start_consuming], if it has one. *)
Definition setup_error (a : Attempt) : option exn :=
  match connect_error a with Some e => Some e | None =>
  match channel_error a with Some e => Some e | None =>
  match declare_error a with Some e => Some e | None =>
  match qos_error a with Some e => Some e | None =>
  register_error a
  end end end end.

(** What a turn does, in order, before it hands over to [start_consuming]. *)
Definition registration : list Event :=
  [BlockingConnection; Channel; QueueDeclare true;
   Printed WaitingForMessages; BasicQos 1; BasicConsume].

(** What the publishing side did between [b] and the later [b']. *)
Definition new_pub_events (b b' : Broker) : list PubEvent :=
  drop (length (pub_trace b)) (pub_trace b').

(** The waits among the events of the publishing side. *)
Definition pub_sleeps (evs : list PubEvent) : list Z :=
  omap (fun ev => match ev with
                  | AsyncioSleep seconds => Some seconds
                  | PubPrinted _ => None
                  end) evs.

(** The message a turn of the generator gets accepted, if it does. *)
Definition cycle_message (c : Cycle) : option Message :=
  if accepted (cycle_env c) then Some (message_of (random_reading c))
  else None.

(** Every connection of the publishers that is open was handed out
    earlier. *)
Definition broker_conns_fresh (b : Broker) : Prop :=
  forall c, c ∈ broker_conns b -> (c < next_broker_conn b)%nat.

(** A computation that leaves the rows of the table in place, possibly
    with new rows after them, and does not lower the counter. *)
Definition only_appends {A : Type} (m : M A) : Prop :=
  forall w,
    (exists rows, sensor_data (m w).2 = sensor_data w ++ rows) /\
    (data_received_counter (metrics w) <=
       data_received_counter (metrics (m w).2))%nat.


(** The row a delivery leaves in the table, if it leaves one. *)
Definition stored_row (d : Delivery) : option Row :=
  match decode (d_body d) with
  | Ok x =>
      if connect_ok (d_env d) && statement_ok (d_env d)
      then Some (row_of (now (d_env d)) x)
      else None
  | Raise _ => None
  end.

(** The reading of a delivery, if its body decodes. *)
Definition decoded (d : Delivery) : option reading :=
  match decode (d_body d) with
  | Ok x => Some x
  | Raise _ => None
  end.

(** The answer a delivery gets. *)
Definition answer (d : Delivery) : Event :=
  match decode (d_body d) with
  | Ok _ => BasicAck (d_tag d)
  | Raise _ => BasicNack (d_tag d) false
  end.

(** The delivery opens a storage connection and closes it again. *)
Definition stores (d : Delivery) : bool :=
  match decode (d_body d) with
  | Ok _ => connect_ok (d_env d) && statement_ok (d_env d)
  | Raise _ => false
  end.

(** The delivery opens a storage connection and leaves it open. *)
Definition leaks (d : Delivery) : bool :=
  match decode (d_body d) with
  | Ok _ => connect_ok (d_env d) && negb (statement_ok (d_env d))
  | Raise _ => false
  end.

(** ** Sample data *)

Definition dq : string := String "034"%char EmptyString.

(** [{"co2": 550.0, "humidity": 45.0, "temperature": 22.5}] *)
Definition body_550 : string :=
  "{" +:+ dq +:+ "co2" +:+ dq +:+ ": 550.0, " +:+
  dq +:+ "humidity" +:+ dq +:+ ": 45.0, " +:+
  dq +:+ "temperature" +:+ dq +:+ ": 22.5}".

(** [{"co2": "550", "humidity": true}] *)
Definition body_coerced : string :=
  "{" +:+ dq +:+ "co2" +:+ dq +:+ ": " +:+ dq +:+ "550" +:+ dq +:+ ", " +:+
  dq +:+ "humidity" +:+ dq +:+ ": true}".

(** [{"co2": 1, "timestamp": 0}] *)
Definition body_stamped : string :=
  "{" +:+ dq +:+ "co2" +:+ dq +:+ ": 1, " +:+
  dq +:+ "timestamp" +:+ dq +:+ ": 0}".

Definition body_empty : string := "{}".
Definition body_list : string := "[1, 2]".
Definition body_not_json : string := "not json".

Definition dict_550 : gmap string json :=
  <["co2" := JFloat 550%float]>
  (<["humidity" := JFloat 45%float]>
  (<["temperature" := JFloat 22.5%float]> ∅)).

Definition dict_coerced : gmap string json :=
  <["co2" := JStr "550"]> (<["humidity" := JBool true]> ∅).

(** [json.loads] on the sample bodies. *)
Definition sample_loads (s : string) : option json :=
  if decide (s = body_550) then Some (JDict dict_550)
  else if decide (s = body_coerced)
  then Some (JDict dict_coerced)
  else if decide (s = body_stamped)
  then Some (JDict (<["co2" := JInt 1]> (<["timestamp" := JInt 0]> ∅)))
  else if decide (s = body_empty) then Some (JDict ∅)
  else if decide (s = body_list) then Some (JList [JInt 1; JInt 2])
  else None.

(** [json.dumps] on the sample reading. *)
Definition sample_dumps (v : json) : string := body_550.

(** [float] on the sample strings. *)
Definition sample_float_of_str (s : string) : option float :=
  if decide (s = "550") then Some 550%float else None.

Definition metrics0 : Metrics :=
  {| co2_gauge := 0%float;
     humidity_gauge := 0%float;
     temperature_gauge := 0%float;
     data_received_counter := 0 |}.

(** The process as it starts, with an empty table. *)
Definition world0 : World :=
  {| metrics := metrics0;
     sensor_data := [];
     open_conns := ∅;
     next_conn := 0;
     trace := [] |}.

(** A reading stamped 100. *)
Definition row_late : Row :=
  {| timestamp := 100;
     co2_ppm := 400%float;
     humidity_percent := 30%float;
     temperature_celsius := 18%float |}.

(** A table that already holds it. *)
Definition world_late : World :=
  {| metrics := metrics0;
     sensor_data := [row_late];
     open_conns := ∅;
     next_conn := 0;
     trace := [] |}.

Definition env_up (t : Z) : Env :=
  {| connect_ok := true; statement_ok := true; now := t |}.
Definition env_down (t : Z) : Env :=
  {| connect_ok := false; statement_ok := true; now := t |}.
Definition env_write_fails (t : Z) : Env :=
  {| connect_ok := true; statement_ok := false; now := t |}.

(** Three turns of the consumer loop: the broker refuses the connection;
    then it hands over two messages and the channel breaks; then
    [start_consuming] returns. *)
Definition sample_turns : list Attempt :=
  [ {| connect_error := Some AMQPConnectionError;
       channel_error := None;
       declare_error := None;
       qos_error := None;
       register_error := None;
       deliveries := [];
       consume_end := None |};
    {| connect_error := None;
       channel_error := None;
       declare_error := None;
       qos_error := None;
       register_error := None;
       deliveries := [ {| d_tag := 1%nat; d_body := body_550;
                          d_env := env_up 5 |};
                       {| d_tag := 2%nat; d_body := body_not_json;
                          d_env := env_down 6 |} ];
       consume_end := Some AMQPChannelError |};
    {| connect_error := None;
       channel_error := None;
       declare_error := None;
       qos_error := None;
       register_error := None;
       deliveries := [];
       consume_end := None |} ].

(** A broker that has accepted nothing yet. *)
Definition broker0 : Broker :=
  {| published := [];
     broker_conns := ∅;
     next_broker_conn := 0;
     pub_trace := [] |}.

Definition pub_ok : PubEnv :=
  {| pub_connect_error := None;
     pub_channel_error := None;
     pub_declare_error := None;
     pub_publish_error := None;
     pub_close_error := None |}.

Definition pub_refused : PubEnv :=
  {| pub_connect_error := Some AMQPConnectionError;
     pub_channel_error := None;
     pub_declare_error := None;
     pub_publish_error := None;
     pub_close_error := None |}.

Definition pub_publish_fails : PubEnv :=
  {| pub_connect_error := None;
     pub_channel_error := None;
     pub_declare_error := None;
     pub_publish_error := Some AMQPChannelError;
     pub_close_error := None |}.

Definition pub_close_fails : PubEnv :=
  {| pub_connect_error := None;
     pub_channel_error := None;
     pub_declare_error := None;
     pub_publish_error := None;
     pub_close_error := Some AMQPConnectionError |}.

(** [{"co2": null}] as a request. *)
Definition dict_null : gmap string json := <["co2" := JNull]> ∅.

(** Two turns of the generator: the broker is down, then up. *)
Definition sample_cycles : list Cycle :=
  [ {| random_reading := (800%float, 50%float, 20%float);
       cycle_env := pub_refused |};
    {| random_reading := (550%float, 45%float, 22.5%float);
       cycle_env := pub_ok |} ].

(** Three deliveries: stored; malformed; well-formed with the insert
    failing. *)
Definition sample_deliveries : list Delivery :=
  [ {| d_tag := 1%nat; d_body := body_550; d_env := env_up 5 |};
    {| d_tag := 2%nat; d_body := body_not_json; d_env := env_up 6 |};
    {| d_tag := 3%nat; d_body := body_coerced; d_env := env_write_fails 7 |} ].

(** The object of [body_stamped]. *)
Definition dict_stamped : gmap string json :=
  <["co2" := JInt 1]> (<["timestamp" := JInt 0]> ∅).

(** [{"co2": 1}] *)
Definition body_co2_only : string :=
  "{" +:+ dq +:+ "co2" +:+ dq +:+ ": 1}".

Definition dict_co2_only : gmap string json := <["co2" := JInt 1]> ∅.

(** [json.loads] on the sample bodies and on [body_co2_only]. *)
Definition sample_loads_more (s : string) : option json :=
  if decide (s = body_co2_only) then Some (JDict dict_co2_only)
  else sample_loads s.

(** A turn of the consumer loop interrupted while it connects. *)
Definition turn_interrupted : Attempt :=
  {| connect_error := Some KeyboardInterrupt;
     channel_error := None;
     declare_error := None;
     qos_error := None;
     register_error := None;
     deliveries := [];
     consume_end := None |}.

(** * Properties *)

(** ** What [process_sensor_data] does, by what the store does *)

Lemma process_sensor_data_stored env co2 humidity temperature w :
  connect_ok env = true ->
  statement_ok env = true ->
  process_sensor_data env co2 humidity temperature w =
    (Ok tt,
     {| metrics := observe (co2, humidity, temperature) (metrics w);
        sensor_data := sensor_data w ++
          [row_of (now env) (co2, humidity, temperature)];
        open_conns := ({[next_conn w]} ∪ open_conns w) ∖ {[next_conn w]};
        next_conn := S (next_conn w);
        trace := trace w ++ [Printed (Processed (co2, humidity, temperature))] |}).
Proof.
  intros Hc Hs.
  unfold process_sensor_data, try_except, try_, bind, get_db_connection,
    execute_insert; cbn.
  rewrite Hc; cbn. rewrite Hs; cbn. reflexivity.
Qed.

Lemma process_sensor_data_no_connection env co2 humidity temperature w :
  connect_ok env = false ->
  process_sensor_data env co2 humidity temperature w =
    (Ok tt,
     {| metrics := observe (co2, humidity, temperature) (metrics w);
        sensor_data := sensor_data w;
        open_conns := open_conns w;
        next_conn := next_conn w;
        trace := trace w ++ [Printed (ErrorProcessingData ConnectionRefusedError)] |}).
Proof.
  intros Hc.
  unfold process_sensor_data, try_except, try_, bind, get_db_connection; cbn.
  rewrite Hc; cbn. reflexivity.
Qed.

Lemma process_sensor_data_insert_fails env co2 humidity temperature w :
  connect_ok env = true ->
  statement_ok env = false ->
  process_sensor_data env co2 humidity temperature w =
    (Ok tt,
     {| metrics := observe (co2, humidity, temperature) (metrics w);
        sensor_data := sensor_data w;
        open_conns := {[next_conn w]} ∪ open_conns w;
        next_conn := S (next_conn w);
        trace := trace w ++ [Printed (ErrorProcessingData PostgresError)] |}).
Proof.
  intros Hc Hs.
  unfold process_sensor_data, try_except, try_, bind, get_db_connection,
    execute_insert; cbn.
  rewrite Hc; cbn. rewrite Hs; cbn. reflexivity.
Qed.

(** It never raises: it sets the metrics, prints one line and returns. *)
Lemma process_sensor_data_returns env co2 humidity temperature w :
  exists w1 l,
    process_sensor_data env co2 humidity temperature w = (Ok tt, w1) /\
    metrics w1 = observe (co2, humidity, temperature) (metrics w) /\
    trace w1 = trace w ++ [Printed l].
Proof.
  destruct (connect_ok env) eqn:Hc; [destruct (statement_ok env) eqn:Hs|].
  - do 2 eexists; split; [by apply process_sensor_data_stored|done].
  - do 2 eexists; split; [by apply process_sensor_data_insert_fails|done].
  - do 2 eexists; split; [by apply process_sensor_data_no_connection|done].
Qed.

(** When the store cannot take the reading the table stays as it was and
    the failure is printed. *)
Lemma process_sensor_data_not_stored env co2 humidity temperature w :
  store_unavailable env ->
  exists w1 e,
    process_sensor_data env co2 humidity temperature w = (Ok tt, w1) /\
    metrics w1 = observe (co2, humidity, temperature) (metrics w) /\
    sensor_data w1 = sensor_data w /\
    trace w1 = trace w ++ [Printed (ErrorProcessingData e)].
Proof.
  intros Hdown.
  destruct (connect_ok env) eqn:Hc.
  - destruct Hdown as [Hd|Hd]; [congruence|].
    do 2 eexists; split; [by apply process_sensor_data_insert_fails|done].
  - do 2 eexists; split; [by apply process_sensor_data_no_connection|done].
Qed.

(** ** What [decode] can raise *)

Lemma float_of_int_raises z e : float_of_int z = Raise e -> e = OverflowError.
Proof.
  unfold float_of_int.
  destruct (binary_normalize prec emax z 0 false); congruence.
Qed.

Lemma float_raises v e : float_ v = Raise e -> is_Exception e = true.
Proof.
  destruct v; cbn; try (by intros [= <-]).
  - intros H. by rewrite (float_of_int_raises _ _ H).
  - destruct (float_of_str s); by intros [= <-].
Qed.

Lemma get_float_raises data key e :
  rbind (get data key) float_ = Raise e -> is_Exception e = true.
Proof.
  destruct data; cbn; try (by intros [= <-]).
  apply float_raises.
Qed.

Lemma decode_raises body e : decode body = Raise e -> is_Exception e = true.
Proof.
  unfold decode.
  destruct (json_loads body) as [data|]; [|by intros [= <-]].
  destruct (rbind (get data "co2") float_) as [co2|e1] eqn:H1; cbn;
    [|intros [= <-]; by eapply get_float_raises].
  destruct (rbind (get data "humidity") float_) as [hum|e2] eqn:H2; cbn;
    [|intros [= <-]; by eapply get_float_raises].
  destruct (rbind (get data "temperature") float_) as [tmp|e3] eqn:H3; cbn;
    [done|intros [= <-]; by eapply get_float_raises].
Qed.

(** ** What [callback] does, by what [decode] returns *)

Lemma emitted_emitted evs1 evs2 w :
  emitted evs2 (emitted evs1 w) = emitted (evs1 ++ evs2) w.
Proof. unfold emitted; cbn. by rewrite <- app_assoc. Qed.

Lemma callback_decoded env tag body x w w1 :
  decode body = Ok x ->
  process_sensor_data env x.1.1 x.1.2 x.2 w = (Ok tt, w1) ->
  callback env tag body w =
    (Ok tt, emitted [BasicAck tag; Printed (Received x)] w1).
Proof.
  intros Hd Hp. destruct x as [[co2 humidity] temperature]; cbn in Hp.
  unfold callback, try_except, try_, bind, lift.
  rewrite Hd, Hp. cbn. by rewrite emitted_emitted.
Qed.

Lemma callback_not_decoded env tag body e w :
  decode body = Raise e ->
  callback env tag body w =
    (Ok tt, emitted [Printed (ErrorProcessingMessage e); BasicNack tag false] w).
Proof.
  intros Hd.
  unfold callback, try_except, try_, bind, lift.
  rewrite Hd, (decode_raises _ _ Hd). unfold print, emit.
  by rewrite emitted_emitted.
Qed.

(** ** The answer to the broker *)

Lemma new_events_app w w' evs : trace w' = trace w ++ evs -> new_events w w' = evs.
Proof. unfold new_events. intros ->. by rewrite drop_app_length. Qed.

Lemma acknowledgement_decoded env tag body x w :
  decode body = Ok x -> acknowledgement env tag body w = [BasicAck tag].
Proof.
  intros Hd.
  destruct (process_sensor_data_returns env x.1.1 x.1.2 x.2 w)
    as (w1 & l & Hp & _ & Ht).
  unfold acknowledgement.
  rewrite (callback_decoded _ _ _ _ _ _ Hd Hp); cbn [snd].
  rewrite (new_events_app w _ ([Printed l] ++ [BasicAck tag; Printed (Received x)])).
  - reflexivity.
  - cbn [emitted trace]. by rewrite Ht, <- app_assoc.
Qed.

Lemma acknowledgement_not_decoded env tag body e w :
  decode body = Raise e -> acknowledgement env tag body w = [BasicNack tag false].
Proof.
  intros Hd. unfold acknowledgement.
  rewrite (callback_not_decoded _ _ _ _ _ Hd); cbn [snd].
  by rewrite (new_events_app w _
    [Printed (ErrorProcessingMessage e); BasicNack tag false]).
Qed.

(** ** The latest row *)

Lemma select_latest_newest rows r :
  (forall r', r' ∈ rows -> timestamp r' < timestamp r) ->
  select_latest (rows ++ [r]) = Some r.
Proof.
  induction rows as [|r0 rows IH]; intros Hlt; [done|].
  cbn. rewrite IH by (intros r' Hr'; apply Hlt; by right).
  assert (timestamp r0 < timestamp r) as Hr0 by (apply Hlt; by left).
  apply Z.ltb_lt in Hr0. by rewrite Hr0.
Qed.

Lemma get_latest_data_available env w :
  store_available env ->
  (get_latest_data env w).1 =
    Ok (match select_latest (sensor_data w) with
        | Some r => LatestReading r
        | None => NoDataAvailable
        end).
Proof.
  intros [Hc Hs].
  unfold get_latest_data, try_except, try_, bind, get_db_connection,
    fetchrow_latest; cbn.
  rewrite Hc; cbn. rewrite Hs; cbn.
  by destruct (select_latest (sensor_data w)).
Qed.

(** ** The claims on the pipeline *)

(** C1, as amended. For a well-formed message, when the store cannot take
    the reading, [callback] still sets the three gauges to the incoming
    values, prints the failure and leaves the table as it was; the failure
    is caught inside [process_sensor_data], so the delivery is acknowledged
    ([Ack]) like one that was stored. *)
Theorem store_failure_observed_then_acknowledged env tag body x w :
  decode body = Ok x ->
  store_unavailable env ->
  let w' := (callback env tag body w).2 in
  (callback env tag body w).1 = Ok tt /\
  gauges (metrics w') = x /\
  sensor_data w' = sensor_data w /\
  acknowledgement env tag body w = [transport Ack tag] /\
  exists e, Printed (ErrorProcessingData e) ∈ new_events w w'.
Proof.
  intros Hd Hdown w'.
  destruct (process_sensor_data_not_stored env x.1.1 x.1.2 x.2 w Hdown)
    as (w1 & e & Hp & Hm & Hrows & Ht).
  subst w'. rewrite (callback_decoded _ _ _ _ _ _ Hd Hp); cbn [fst snd].
  repeat split.
  - cbn [emitted metrics]. rewrite Hm. by destruct x as [[? ?] ?].
  - done.
  - by apply acknowledgement_decoded with x.
  - exists e.
    rewrite (new_events_app w _
      ([Printed (ErrorProcessingData e)] ++ [BasicAck tag; Printed (Received x)])).
    + by left.
    + cbn [emitted trace]. by rewrite Ht, <- app_assoc.
Qed.

(** C2, as amended. For a well-formed message, when the store is available
    and the clock reads later than every timestamp already in the table, the
    delivery is acknowledged ([Ack]), the counter goes up by exactly one, and
    [get_latest_data] then returns a row with exactly the reading's three
    values. *)
Theorem stored_reading_is_latest env tag body x w :
  decode body = Ok x ->
  store_available env ->
  (forall r, r ∈ sensor_data w -> timestamp r < now env) ->
  let w' := (callback env tag body w).2 in
  acknowledgement env tag body w = [transport Ack tag] /\
  data_received_counter (metrics w') = S (data_received_counter (metrics w)) /\
  forall env', store_available env' ->
    exists r, (get_latest_data env' w').1 = Ok (LatestReading r) /\
              values r = x /\ timestamp r = now env.
Proof.
  intros Hd [Hc Hs] Hclock w'.
  destruct x as [[co2 humidity] temperature].
  pose proof (process_sensor_data_stored env co2 humidity temperature w Hc Hs)
    as Hp.
  subst w'.
  rewrite (callback_decoded _ _ _ (co2, humidity, temperature) _ _ Hd Hp);
    cbn [snd].
  split; [by eapply acknowledgement_decoded|].
  split; [done|].
  intros env' Hup. exists (row_of (now env) (co2, humidity, temperature)).
  rewrite (get_latest_data_available _ _ Hup); cbn [emitted sensor_data].
  by rewrite select_latest_newest.
Qed.

(** C4. A body that [decode] cannot turn into a reading is answered with a
    negative acknowledgement without requeue; the metrics (the counter among
    them), the table and the open connections are what they were. *)
Theorem malformed_message_rejected env tag body e w :
  decode body = Raise e ->
  let w' := (callback env tag body w).2 in
  acknowledgement env tag body w = [BasicNack tag false] /\
  metrics w' = metrics w /\
  sensor_data w' = sensor_data w /\
  open_conns w' = open_conns w.
Proof.
  intros Hd w'. split; [by apply acknowledgement_not_decoded with e|].
  subst w'. by rewrite (callback_not_decoded _ _ _ _ _ Hd).
Qed.

(** C8. Whatever the body of the message, every row that handling it adds
    to the table is stamped with the clock reading of the moment it is
    handled, [now env]; a decoded reading that is stored makes exactly one
    such row. *)
Theorem stored_timestamp_is_ingestion_clock env tag body w :
  exists rows,
    sensor_data (callback env tag body w).2 = sensor_data w ++ rows /\
    (forall r, r ∈ rows -> timestamp r = now env) /\
    (forall x, decode body = Ok x -> store_available env ->
               rows = [row_of (now env) x]).
Proof.
  destruct (decode body) as [x|e] eqn:Hd.
  - destruct (connect_ok env) eqn:Hc; [destruct (statement_ok env) eqn:Hs|].
    + pose proof (process_sensor_data_stored env x.1.1 x.1.2 x.2 w Hc Hs) as Hp.
      rewrite (callback_decoded _ _ _ _ _ _ Hd Hp); cbn [snd emitted sensor_data].
      exists [row_of (now env) x]. destruct x as [[co2 humidity] temperature].
      repeat split.
      * intros r Hr. apply list_elem_of_singleton in Hr. by subst r.
      * by intros x' [= <-] _.
    + pose proof (process_sensor_data_insert_fails env x.1.1 x.1.2 x.2 w Hc Hs) as Hp.
      rewrite (callback_decoded _ _ _ _ _ _ Hd Hp); cbn [snd emitted sensor_data].
      exists []. rewrite app_nil_r. repeat split.
      * intros r Hr. by apply elem_of_nil in Hr.
      * intros x' _ [_ Hs']. congruence.
    + pose proof (process_sensor_data_no_connection env x.1.1 x.1.2 x.2 w Hc) as Hp.
      rewrite (callback_decoded _ _ _ _ _ _ Hd Hp); cbn [snd emitted sensor_data].
      exists []. rewrite app_nil_r. repeat split.
      * intros r Hr. by apply elem_of_nil in Hr.
      * intros x' _ [Hc' _]. congruence.
  - rewrite (callback_not_decoded _ _ _ _ _ Hd); cbn [snd emitted sensor_data].
    exists []. rewrite app_nil_r. repeat split.
    + intros r Hr. by apply elem_of_nil in Hr.
    + intros x' [=].
Qed.

(** C9. For a well-formed message the counter goes up by one also when the
    store cannot take the reading: the metrics are set before the write, and
    the failed write is caught, so [callback] returns with the table as it
    was and the counter one higher. *)
Theorem counter_counts_received_messages env tag body x w :
  decode body = Ok x ->
  store_unavailable env ->
  let w' := (callback env tag body w).2 in
  (callback env tag body w).1 = Ok tt /\
  data_received_counter (metrics w') = S (data_received_counter (metrics w)) /\
  sensor_data w' = sensor_data w.
Proof.
  intros Hd Hdown w'.
  destruct (process_sensor_data_not_stored env x.1.1 x.1.2 x.2 w Hdown)
    as (w1 & e & Hp & Hm & Hrows & _).
  subst w'. rewrite (callback_decoded _ _ _ _ _ _ Hd Hp); cbn [fst snd].
  repeat split; [|done].
  cbn [emitted metrics]. by rewrite Hm.
Qed.

(** ** The claims on the codec *)

Lemma float_of_int_0 : float_of_int 0 = Ok zero.
Proof. reflexivity. Qed.

Lemma get_float_field d key v :
  rbind (get (JDict d) key) float_ = Ok v <-> field d key v.
Proof.
  unfold field, get, rbind. destruct (d !! key) as [j|]; [done|].
  change (Ok zero = Ok v <-> v = zero).
  split; [by intros [= <-]|by intros ->].
Qed.

Lemma decode_dict body d co2 humidity temperature :
  json_loads body = Some (JDict d) ->
  decode body = Ok (co2, humidity, temperature) <->
  field d "co2" co2 /\ field d "humidity" humidity /\
  field d "temperature" temperature.
Proof.
  intros Hl. unfold decode. rewrite Hl.
  rewrite <- !get_float_field.
  destruct (rbind (get (JDict d) "co2") float_) as [c|e1],
    (rbind (get (JDict d) "humidity") float_) as [h|e2],
    (rbind (get (JDict d) "temperature") float_) as [t|e3]; cbn;
    (split; [intros [=]|intros ([=] & [=] & [=])]); by subst.
Qed.


(** C7. On a body that is a JSON object, [decode] returns the triple
    (co2, humidity, temperature) exactly when each field is the value under
    its key coerced by [float], or 0.0 when the key is absent. *)
Theorem decode_coerces_and_defaults body d co2 humidity temperature :
  json_loads body = Some (JDict d) ->
  decode body = Ok (co2, humidity, temperature) <->
  field d "co2" co2 /\ field d "humidity" humidity /\
  field d "temperature" temperature.
Proof. apply decode_dict. Qed.



(** ** Storage connections *)

(** A reading that is stored leaves the open connections as they were. *)
Lemma process_sensor_data_releases env co2 humidity temperature w :
  store_available env ->
  conns_fresh w ->
  open_conns (process_sensor_data env co2 humidity temperature w).2 =
    open_conns w.
Proof.
  intros [Hc Hs] Hfresh.
  rewrite process_sensor_data_stored by done; cbn.
  apply set_eq; intros c.
  rewrite elem_of_difference, elem_of_union, elem_of_singleton.
  split; [by intros [[->|Hin] Hne]|].
  intros Hin. split; [by right|].
  intros ->. apply Hfresh in Hin. lia.
Qed.

(** An insert that fails on an open connection leaves that connection
    open: line 47 is not reached. *)
Lemma process_sensor_data_leaks env co2 humidity temperature w :
  connect_ok env = true ->
  statement_ok env = false ->
  open_conns (process_sensor_data env co2 humidity temperature w).2 =
    {[next_conn w]} ∪ open_conns w.
Proof. intros Hc Hs. by rewrite process_sensor_data_insert_fails. Qed.

(** The same for the query of [get_latest_data]: line 197 is not reached. *)
Lemma get_latest_data_leaks env w :
  connect_ok env = true ->
  statement_ok env = false ->
  get_latest_data env w =
    (Raise (HTTPException 500),
     {| metrics := metrics w;
        sensor_data := sensor_data w;
        open_conns := {[next_conn w]} ∪ open_conns w;
        next_conn := S (next_conn w);
        trace := trace w |}).
Proof.
  intros Hc Hs.
  unfold get_latest_data, try_except, try_, bind, get_db_connection,
    fetchrow_latest; cbn.
  rewrite Hc; cbn. by rewrite Hs.
Qed.

(** C5, on the code. With the database reachable and the statement failing,
    [process_sensor_data] and [get_latest_data] each return with the
    connection they opened, handle 0, still open: neither releases it on
    that path. *)
Theorem connection_left_open_when_statement_fails :
  let w1 := (process_sensor_data (env_write_fails 5)
               550%float 45%float 22.5%float world0).2 in
  let w2 := (get_latest_data (env_write_fails 5) world0).2 in
  open_conns world0 = ∅ /\
  open_conns w1 = {[0%nat]} /\
  open_conns w2 = {[0%nat]}.
Proof.
  cbv zeta. split; [done|].
  rewrite process_sensor_data_leaks, get_latest_data_leaks by done.
  cbn. split; set_solver.
Qed.

(** ** The consumer loop *)

(** [callback] returns, whatever the delivery and whatever the store does. *)
Lemma callback_returns env tag body w :
  exists w' evs,
    callback env tag body w = (Ok tt, w') /\
    trace w' = trace w ++ evs /\
    List.filter is_supervision evs = [].
Proof.
  destruct (decode body) as [x|e] eqn:Hd.
  - destruct (process_sensor_data_returns env x.1.1 x.1.2 x.2 w)
      as (w1 & l & Hp & _ & Ht).
    exists (emitted [BasicAck tag; Printed (Received x)] w1),
      ([Printed l] ++ [BasicAck tag; Printed (Received x)]).
    split; [by apply callback_decoded|].
    split; [|done]. cbn [emitted trace]. by rewrite Ht, <- app_assoc.
  - exists (emitted [Printed (ErrorProcessingMessage e); BasicNack tag false] w),
      [Printed (ErrorProcessingMessage e); BasicNack tag false].
    split; [by apply callback_not_decoded|done].
Qed.

(** [start_consuming] ends the way the broker ends it. *)
Lemma start_consuming_ends ds stop w :
  exists w' evs,
    start_consuming ds stop w =
      (match stop with Some e => Raise e | None => Ok tt end, w') /\
    trace w' = trace w ++ evs /\
    List.filter is_supervision evs = [].
Proof.
  revert w. induction ds as [|d ds IH]; intros w.
  - exists w, []. rewrite app_nil_r. by destruct stop.
  - destruct (callback_returns (d_env d) (d_tag d) (d_body d) w)
      as (w1 & evs1 & Hc & Ht1 & Hf1).
    destruct (IH w1) as (w2 & evs2 & Hs & Ht2 & Hf2).
    exists w2, (evs1 ++ evs2). cbn [start_consuming]. unfold bind.
    rewrite Hc, Hs. split; [done|]. split.
    + by rewrite Ht2, Ht1, app_assoc.
    + by rewrite List.filter_app, Hf1, Hf2.
Qed.

(** The [try] block ends with the first raise of the turn, if it has one,
    and has attempted one connection. *)
Lemma connect_and_consume_ends a w :
  exists w' evs,
    connect_and_consume a w =
      (match turn_error a with Some e => Raise e | None => Ok tt end, w') /\
    trace w' = trace w ++ evs /\
    List.filter is_supervision evs = [BlockingConnection].
Proof.
  destruct a as [ce he de qe re ds stop].
  unfold turn_error, connect_and_consume, bind, print, emit, may_raise,
    raise, ret.
  cbn [connect_error channel_error declare_error qos_error register_error
       deliveries consume_end].
  destruct ce as [e|].
  { eexists _, [BlockingConnection]. repeat split. }
  destruct he as [e|].
  { eexists _, [BlockingConnection]. repeat split. }
  destruct de as [e|].
  { eexists _, [BlockingConnection; Channel].
    split; [reflexivity|]. split; [|reflexivity].
    cbn [emitted trace]. by rewrite <- !app_assoc. }
  destruct qe as [e|]; cbv beta iota.
  { eexists _, [BlockingConnection; Channel; QueueDeclare true;
                Printed WaitingForMessages].
    split; [reflexivity|]. split; [|reflexivity].
    cbn [emitted trace]. by rewrite <- !app_assoc. }
  destruct re as [e|]; cbv beta iota.
  { eexists _, [BlockingConnection; Channel; QueueDeclare true;
                Printed WaitingForMessages; BasicQos 1].
    split; [reflexivity|]. split; [|reflexivity].
    cbn [emitted trace]. by rewrite <- !app_assoc. }
  match goal with |- context [start_consuming ds stop ?w0] =>
    destruct (start_consuming_ends ds stop w0) as (w1 & evs & Hs & Ht & Hf)
  end.
  cbn [emitted trace] in Ht.
  exists w1, ([BlockingConnection; Channel; QueueDeclare true;
               Printed WaitingForMessages; BasicQos 1; BasicConsume] ++ evs).
  split; [exact Hs|]. split.
  - rewrite Ht, <- !app_assoc. reflexivity.
  - rewrite List.filter_app, Hf. reflexivity.
Qed.

(** The two [except] clauses of the loop do the same but for the line they
    print. *)
Lemma retry_after_error e w :
  is_Exception e = true ->
  exists l h,
    retry_clauses e = Some h /\
    h w = (Ok tt, emitted [Printed l; Sleep 5] w).
Proof.
  intros He. unfold retry_clauses. rewrite He.
  destruct (is_AMQPConnectionError e); do 2 eexists;
    (split; [reflexivity|]);
    unfold bind, print, time_sleep, emit; rewrite emitted_emitted;
    reflexivity.
Qed.

Lemma consumer_turn_returns a w :
  (forall e, turn_error a = Some e -> is_Exception e = true) ->
  exists w' evs,
    consumer_turn a w = (Ok tt, w') /\
    trace w' = trace w ++ evs /\
    List.filter is_supervision evs = turn_pattern a.
Proof.
  intros He.
  destruct (connect_and_consume_ends a w) as (w1 & evs & Hb & Ht & Hf).
  unfold consumer_turn, try_, turn_pattern. rewrite Hb.
  destruct (turn_error a) as [e|].
  - destruct (retry_after_error e w1) as (l & h & -> & ->); [by apply He|].
    exists (emitted [Printed l; Sleep 5] w1), (evs ++ [Printed l; Sleep 5]).
    split; [reflexivity|]. split.
    + cbn [emitted trace]. rewrite Ht, <- app_assoc. reflexivity.
    + rewrite List.filter_app, Hf. reflexivity.
  - exists w1, evs. rewrite Hf. repeat split; assumption.
Qed.

(** C6. Run through any number of turns in which every raise is an
    [Exception], the loop is still running at the end; each turn makes one
    connection attempt, a turn that raised is followed by a wait before the
    next attempt, and every wait is of five seconds. *)
Theorem consumer_reconnects_forever turns w :
  Forall (fun a => forall e, turn_error a = Some e -> is_Exception e = true)
    turns ->
  let r := rabbitmq_consumer turns w in
  r.1 = Ok tt /\
  List.filter is_supervision (new_events w r.2) = flat_map turn_pattern turns /\
  forall seconds, Sleep seconds ∈ new_events w r.2 -> seconds = 5.
Proof.
  intros Hturns r.
  assert (exists w' evs, rabbitmq_consumer turns w = (Ok tt, w') /\
            trace w' = trace w ++ evs /\
            List.filter is_supervision evs = flat_map turn_pattern turns)
    as (w' & evs & Hr & Ht & Hf).
  { clear r. revert w. induction Hturns as [|a turns Ha _ IH]; intros w.
    - exists w, []. by rewrite app_nil_r.
    - destruct (consumer_turn_returns a w Ha) as (w1 & evs1 & Hc & Ht1 & Hf1).
      destruct (IH w1) as (w2 & evs2 & Hr & Ht2 & Hf2).
      exists w2, (evs1 ++ evs2). cbn [rabbitmq_consumer]. unfold bind.
      rewrite Hc, Hr. split; [done|]. split.
      + by rewrite Ht2, Ht1, app_assoc.
      + by rewrite List.filter_app, Hf1, Hf2. }
  subst r. rewrite Hr; cbn [fst snd]. rewrite (new_events_app _ _ _ Ht).
  split; [done|]. split; [done|].
  intros seconds Hin.
  assert (Sleep seconds ∈ flat_map turn_pattern turns) as Hpat.
  { rewrite <- Hf. apply list_elem_of_In, List.filter_In.
    split; [by apply list_elem_of_In|done]. }
  apply list_elem_of_In, List.in_flat_map in Hpat as (a & _ & Ha).
  unfold turn_pattern in Ha. destruct (turn_error a); cbn in Ha.
  - destruct Ha as [[=]|[[= ->]|[]]]. done.
  - by destruct Ha as [[=]|[]].
Qed.

(** * Further properties of the consumer side *)

(** ** One delivery *)

(** What handling one delivery changes, in the terms of [stored_row],
    [decoded], [answer] and [leaks]. *)
Lemma callback_step d w :
  exists w' evs,
    callback (d_env d) (d_tag d) (d_body d) w = (Ok tt, w') /\
    sensor_data w' = sensor_data w ++ option_list (stored_row d) /\
    data_received_counter (metrics w') =
      (data_received_counter (metrics w) + length (option_list (decoded d)))%nat /\
    gauges (metrics w') = default (gauges (metrics w)) (decoded d) /\
    trace w' = trace w ++ evs /\
    List.filter is_settlement evs = [answer d] /\
    open_conns w' =
      (if leaks d then {[next_conn w]} ∪ open_conns w
       else if stores d
       then ({[next_conn w]} ∪ open_conns w) ∖ {[next_conn w]}
       else open_conns w) /\
    next_conn w' =
      (if leaks d || stores d then S (next_conn w)
       else next_conn w).
Proof.
  unfold stored_row, decoded, answer, leaks, stores.
  destruct d as [tag body env]; cbn [d_tag d_body d_env].
  destruct (decode body) as [[[co2 humidity] temperature]|e] eqn:Hd.
  - destruct (connect_ok env) eqn:Hc; [destruct (statement_ok env) eqn:Hs|];
      cbn [andb negb orb].
    + pose proof (process_sensor_data_stored env co2 humidity temperature w
                    Hc Hs) as Hp.
      eexists _, [Printed (Processed (co2, humidity, temperature));
                  BasicAck tag; Printed (Received (co2, humidity, temperature))].
      split; [exact (callback_decoded env tag body _ w _ Hd Hp)|].
      cbn. rewrite Nat.add_1_r, <- app_assoc. repeat split.
    + pose proof (process_sensor_data_insert_fails env co2 humidity
                    temperature w Hc Hs) as Hp.
      eexists _, [Printed (ErrorProcessingData PostgresError);
                  BasicAck tag; Printed (Received (co2, humidity, temperature))].
      split; [exact (callback_decoded env tag body _ w _ Hd Hp)|].
      cbn. rewrite Nat.add_1_r, app_nil_r, <- app_assoc. repeat split.
    + pose proof (process_sensor_data_no_connection env co2 humidity
                    temperature w Hc) as Hp.
      eexists _, [Printed (ErrorProcessingData ConnectionRefusedError);
                  BasicAck tag; Printed (Received (co2, humidity, temperature))].
      split; [exact (callback_decoded env tag body _ w _ Hd Hp)|].
      cbn. rewrite Nat.add_1_r, app_nil_r, <- app_assoc. repeat split.
  - eexists _, [Printed (ErrorProcessingMessage e); BasicNack tag false].
    split; [exact (callback_not_decoded env tag body e w Hd)|].
    cbn. rewrite Nat.add_0_r, app_nil_r. repeat split.
Qed.


(** ** A run of deliveries *)

(** The last element of a list that has one does not depend on the
    default. *)
Lemma default_last_cons {A : Type} (a b y : A) (l : list A) :
  default a (last (y :: l)) = default b (last (y :: l)).
Proof.
  revert y. induction l as [|z l IH]; intros y; [reflexivity|].
  exact (IH z).
Qed.

Lemma default_last_cons_head {A : Type} (a x : A) (l : list A) :
  default a (last (x :: l)) = default x (last l).
Proof.
  destruct l as [|y l]; [reflexivity|].
  change (last (x :: y :: l)) with (last (y :: l)).
  apply default_last_cons.
Qed.

Lemma start_consuming_run ds stop w :
  exists w' evs,
    start_consuming ds stop w =
      (match stop with Some e => Raise e | None => Ok tt end, w') /\
    sensor_data w' = sensor_data w ++ omap stored_row ds /\
    data_received_counter (metrics w') =
      (data_received_counter (metrics w) + length (omap decoded ds))%nat /\
    gauges (metrics w') =
      default (gauges (metrics w)) (last (omap decoded ds)) /\
    trace w' = trace w ++ evs /\
    List.filter is_settlement evs = map answer ds.
Proof.
  revert w. induction ds as [|d ds IH]; intros w.
  - exists w, []. cbn. rewrite !app_nil_r, Nat.add_0_r.
    by destruct stop.
  - destruct (callback_step d w)
      as (w1 & evs1 & Hc & Hrows1 & Hn1 & Hg1 & Ht1 & Hf1 & _).
    destruct (IH w1) as (w2 & evs2 & Hs & Hrows2 & Hn2 & Hg2 & Ht2 & Hf2).
    exists w2, (evs1 ++ evs2). cbn [start_consuming]. unfold bind.
    rewrite Hc, Hs. split; [reflexivity|].
    split; [|split; [|split; [|split]]].
    + rewrite Hrows2, Hrows1, <- app_assoc. cbn [omap list_omap].
      by destruct (stored_row d).
    + rewrite Hn2, Hn1. cbn [omap list_omap].
      destruct (decoded d); cbn; lia.
    + rewrite Hg2, Hg1. cbn [omap list_omap].
      destruct (decoded d) as [x|]; cbn [default]; [|reflexivity].
      by rewrite default_last_cons_head.
    + by rewrite Ht2, Ht1, app_assoc.
    + by rewrite List.filter_app, Hf1, Hf2.
Qed.

(** X2. After [start_consuming] has handled a run of deliveries, the table
    is the old table followed by one row for each delivery that decoded
    while the store was available, in the order of delivery; the counter is
    up by the number of deliveries that decoded; and the broker has one
    answer for each delivery, in order. *)
Theorem consume_run_rows_counter_answers ds stop w :
  let w' := (start_consuming ds stop w).2 in
  sensor_data w' = sensor_data w ++ omap stored_row ds /\
  data_received_counter (metrics w') =
    (data_received_counter (metrics w) + length (omap decoded ds))%nat /\
  List.filter is_settlement (new_events w w') = map answer ds.
Proof.
  destruct (start_consuming_run ds stop w)
    as (w' & evs & Hs & Hrows & Hn & _ & Ht & Hf).
  cbv zeta. rewrite Hs; cbn [snd].
  by rewrite (new_events_app _ _ _ Ht).
Qed.

(** X3. After a run of deliveries the gauges show the reading of the last
    delivery that decoded, stored or not; when none decoded they show what
    they showed before. *)
Theorem gauges_show_last_decoded_reading ds stop w :
  gauges (metrics (start_consuming ds stop w).2) =
    default (gauges (metrics w)) (last (omap decoded ds)).
Proof.
  destruct (start_consuming_run ds stop w)
    as (w' & evs & Hs & _ & _ & Hg & _).
  by rewrite Hs.
Qed.

(** ** Open storage connections over a run *)

Lemma callback_conns d w :
  conns_fresh w ->
  exists w',
    callback (d_env d) (d_tag d) (d_body d) w = (Ok tt, w') /\
    conns_fresh w' /\
    open_conns w ⊆ open_conns w' /\
    size (open_conns w') =
      (size (open_conns w) + (if leaks d then 1 else 0))%nat.
Proof.
  intros Hfresh.
  destruct (callback_step d w)
    as (w' & evs & Hc & _ & _ & _ & _ & _ & Ho & Hn).
  assert (next_conn w ∉ open_conns w) as Hnew
    by (intros Hin; apply Hfresh in Hin; lia).
  assert (({[next_conn w]} ∪ open_conns w) ∖ {[next_conn w]} = open_conns w)
    as Hback.
  { apply set_eq; intros c.
    rewrite elem_of_difference, elem_of_union, elem_of_singleton.
    split; [by intros [[->|Hin] Hne]|].
    intros Hin. split; [by right|]. by intros ->. }
  exists w'. split; [exact Hc|].
  destruct (leaks d); [|destruct (stores d)]; cbn [orb] in Hn;
    rewrite ?Hback in Ho.
  - split; [|split].
    + intros c. rewrite Ho, Hn, elem_of_union, elem_of_singleton.
      intros [->|Hin]; [lia|]. apply Hfresh in Hin. lia.
    + rewrite Ho. apply union_subseteq_r.
    + rewrite Ho, size_union, size_singleton by
        (apply disjoint_singleton_l; exact Hnew). lia.
  - split; [|split].
    + intros c. rewrite Ho, Hn. intros Hin. apply Hfresh in Hin. lia.
    + by rewrite Ho.
    + rewrite Ho. lia.
  - split; [|split].
    + intros c. rewrite Ho, Hn. apply Hfresh.
    + by rewrite Ho.
    + rewrite Ho. lia.
Qed.

(** X4. Over a run of deliveries, the storage connections that are open
    only grow in number: none that was open is closed, and each delivery
    that decodes, connects and then fails on its insert leaves one more
    open. *)
Theorem failed_inserts_leave_connections_open ds stop w :
  conns_fresh w ->
  let w' := (start_consuming ds stop w).2 in
  conns_fresh w' /\
  open_conns w ⊆ open_conns w' /\
  size (open_conns w') =
    (size (open_conns w) + length (List.filter leaks ds))%nat.
Proof.
  cbv zeta. revert w. induction ds as [|d ds IH]; intros w Hfresh.
  - cbn. rewrite Nat.add_0_r. by destruct stop.
  - destruct (callback_conns d w Hfresh) as (w1 & Hc & Hf1 & Hsub1 & Hsz1).
    destruct (IH w1 Hf1) as (Hf2 & Hsub2 & Hsz2).
    cbn [start_consuming]. unfold bind. rewrite Hc.
    split; [exact Hf2|]. split; [by etrans|].
    rewrite Hsz2, Hsz1. cbn [List.filter].
    destruct (leaks d); cbn [length]; lia.
Qed.

(** ** The latest row, in general *)

Lemma select_latest_spec rows :
  match select_latest rows with
  | None => rows = []
  | Some r => r ∈ rows /\ forall r', r' ∈ rows -> timestamp r' <= timestamp r
  end.
Proof.
  induction rows as [|r0 rows IH]; [reflexivity|].
  cbn. destruct (select_latest rows) as [r1|].
  - destruct IH as [Hin Hmax].
    destruct (timestamp r0 <? timestamp r1) eqn:Hlt.
    + apply Z.ltb_lt in Hlt. split; [by right|].
      intros r' [->|Hr']%elem_of_cons; [lia|by apply Hmax].
    + apply Z.ltb_ge in Hlt. split; [by left|].
      intros r' [->|Hr']%elem_of_cons; [lia|].
      specialize (Hmax r' Hr'). lia.
  - subst rows. split; [by left|].
    intros r' [->|Hr']%elem_of_cons; [lia|by apply elem_of_nil in Hr'].
Qed.

(** X5. When the store is available, [get_latest_data] answers "no data"
    exactly when the table is empty; otherwise it returns a row of the
    table whose timestamp no other row of the table exceeds. *)
Theorem get_latest_data_returns_a_newest_row env w :
  store_available env ->
  match (get_latest_data env w).1 with
  | Ok NoDataAvailable => sensor_data w = []
  | Ok (LatestReading r) =>
      r ∈ sensor_data w /\
      forall r', r' ∈ sensor_data w -> timestamp r' <= timestamp r
  | Raise _ => False
  end.
Proof.
  intros Hup. rewrite (get_latest_data_available _ _ Hup).
  pose proof (select_latest_spec (sensor_data w)) as Hspec.
  by destruct (select_latest (sensor_data w)).
Qed.


(** ** What [decode] reads and how it fails *)

Lemma get_float_dict d key :
  rbind (get (JDict d) key) float_ = float_ (default (JInt 0) (d !! key)).
Proof. reflexivity. Qed.

(** X7. [decode] reads nothing but the three keys: two bodies whose
    objects agree under "co2", "humidity" and "temperature" decode alike,
    whatever else they hold. *)
Theorem decode_reads_only_its_keys body1 body2 d1 d2 :
  json_loads body1 = Some (JDict d1) ->
  json_loads body2 = Some (JDict d2) ->
  (forall key, key ∈ message_keys -> d1 !! key = d2 !! key) ->
  decode body1 = decode body2.
Proof.
  intros H1 H2 Hkeys. unfold decode. rewrite H1, H2, !get_float_dict.
  rewrite !Hkeys by (unfold message_keys; set_solver).
  reflexivity.
Qed.


(** ** The loop and raises that are not exceptions *)

(** X9. A raise in a turn that is not an [Exception] is caught by neither
    clause of the loop: the loop is left by it at once, without a wait, and
    the turns after it do not happen. *)
Theorem interrupt_ends_the_consumer a rest w e :
  turn_error a = Some e ->
  is_Exception e = false ->
  let r := rabbitmq_consumer (a :: rest) w in
  r = connect_and_consume a w /\
  r.1 = Raise e /\
  forall seconds, Sleep seconds ∉ new_events w r.2.
Proof.
  intros Ha He r.
  destruct (connect_and_consume_ends a w) as (w1 & evs & Hb & Ht & Hf).
  rewrite Ha in Hb.
  assert (retry_clauses e = None) as Hnone.
  { unfold retry_clauses. rewrite He. by destruct e. }
  subst r. cbn [rabbitmq_consumer]. unfold bind, consumer_turn, try_.
  rewrite Hb, Hnone. split; [reflexivity|]. split; [reflexivity|].
  intros seconds Hin. cbn [snd] in Hin.
  rewrite (new_events_app _ _ _ Ht) in Hin.
  assert (Sleep seconds ∈ List.filter is_supervision evs) as Hin'.
  { apply list_elem_of_In, List.filter_In.
    split; [by apply list_elem_of_In|reflexivity]. }
  rewrite Hf in Hin'. apply list_elem_of_singleton in Hin'. discriminate Hin'.
Qed.

(** ** The table under the whole loop *)

Lemma only_appends_ret {A : Type} (a : A) : only_appends (ret a).
Proof. intros w. split; [exists []; cbn; by rewrite app_nil_r|done]. Qed.

Lemma only_appends_raise {A : Type} (e : exn) : only_appends (@raise A e).
Proof. intros w. split; [exists []; cbn; by rewrite app_nil_r|done]. Qed.

Lemma only_appends_lift {A : Type} (r : result A) : only_appends (lift r).
Proof. intros w. split; [exists []; cbn; by rewrite app_nil_r|done]. Qed.

Lemma only_appends_emit ev : only_appends (emit ev).
Proof. intros w. split; [exists []; cbn; by rewrite app_nil_r|done]. Qed.

Lemma only_appends_may_raise err : only_appends (may_raise err).
Proof.
  destruct err; [apply only_appends_raise|apply only_appends_ret].
Qed.

Lemma only_appends_set_metrics f :
  (forall m, (data_received_counter m <= data_received_counter (f m))%nat) ->
  only_appends (set_metrics f).
Proof.
  intros Hf w. split; [exists []; cbn; by rewrite app_nil_r|apply Hf].
Qed.

Lemma only_appends_get_db_connection env : only_appends (get_db_connection env).
Proof.
  intros w. unfold get_db_connection.
  destruct (connect_ok env); (split; [exists []; cbn; by rewrite app_nil_r|done]).
Qed.

Lemma only_appends_close conn : only_appends (close conn).
Proof. intros w. split; [exists []; cbn; by rewrite app_nil_r|done]. Qed.

Lemma only_appends_execute_insert env conn ts x :
  only_appends (execute_insert env conn ts x).
Proof.
  intros w. unfold execute_insert. destruct (statement_ok env).
  - split; [by exists [row_of ts x]|done].
  - split; [exists []; cbn; by rewrite app_nil_r|done].
Qed.

Lemma only_appends_bind {A B : Type} (m : M A) (k : A -> M B) :
  only_appends m -> (forall a, only_appends (k a)) -> only_appends (bind m k).
Proof.
  intros Hm Hk w. unfold bind.
  destruct (Hm w) as [[rows1 Hr1] Hn1].
  destruct (m w) as [[a|e] w1]; cbn [snd] in *.
  - destruct (Hk a w1) as [[rows2 Hr2] Hn2]. split.
    + exists (rows1 ++ rows2). by rewrite Hr2, Hr1, app_assoc.
    + lia.
  - split; [by exists rows1|done].
Qed.

Lemma only_appends_try {A : Type} (m : M A) (clauses : exn -> option (M A)) :
  only_appends m ->
  (forall e h, clauses e = Some h -> only_appends h) ->
  only_appends (try_ m clauses).
Proof.
  intros Hm Hh w. unfold try_.
  destruct (Hm w) as [[rows1 Hr1] Hn1].
  destruct (m w) as [[a|e] w1]; cbn [snd] in *.
  - split; [by exists rows1|done].
  - destruct (clauses e) as [h|] eqn:Hc; cbn [snd].
    + destruct (Hh e h Hc w1) as [[rows2 Hr2] Hn2]. split.
      * exists (rows1 ++ rows2). by rewrite Hr2, Hr1, app_assoc.
      * lia.
    + split; [by exists rows1|done].
Qed.

Lemma only_appends_try_except {A : Type} (m : M A) (h : exn -> M A) :
  only_appends m -> (forall e, only_appends (h e)) ->
  only_appends (try_except m h).
Proof.
  intros Hm Hh. apply only_appends_try; [exact Hm|].
  intros e h' He. destruct (is_Exception e); [|discriminate He].
  injection He as <-. apply Hh.
Qed.

Create HintDb appends.

#[local] Hint Resolve only_appends_ret only_appends_raise only_appends_lift
  only_appends_emit only_appends_may_raise only_appends_get_db_connection
  only_appends_close only_appends_execute_insert : appends.

Ltac appends_step :=
  first
    [ apply only_appends_bind; [|intros ?]
    | apply only_appends_try_except; [|intros ?]
    | apply only_appends_set_metrics; intros ?; cbn; lia
    | progress auto with appends ].

Lemma only_appends_process_sensor_data env co2 humidity temperature :
  only_appends (process_sensor_data env co2 humidity temperature).
Proof.
  unfold process_sensor_data, co2_gauge_set, humidity_gauge_set,
    temperature_gauge_set, data_received_counter_inc, datetime_now, print.
  repeat appends_step.
Qed.

Lemma only_appends_callback env tag body : only_appends (callback env tag body).
Proof.
  unfold callback, print. apply only_appends_try_except.
  - apply only_appends_bind; [auto with appends|].
    intros [[co2 humidity] temperature].
    apply only_appends_bind; [apply only_appends_process_sensor_data|].
    intros _. repeat appends_step.
  - intros e. repeat appends_step.
Qed.

Lemma only_appends_start_consuming ds stop :
  only_appends (start_consuming ds stop).
Proof.
  induction ds as [|d ds IH]; cbn [start_consuming].
  - auto with appends.
  - apply only_appends_bind; [apply only_appends_callback|by intros _].
Qed.

Lemma only_appends_consumer_turn a : only_appends (consumer_turn a).
Proof.
  unfold consumer_turn. apply only_appends_try.
  - unfold connect_and_consume, print.
    repeat first [ apply only_appends_start_consuming | appends_step ].
  - intros e h. unfold retry_clauses, print, time_sleep.
    destruct (is_AMQPConnectionError e); [|destruct (is_Exception e)];
      intros [= <-]; repeat appends_step.
Qed.

(** X10. Whatever the broker, the store and the messages do, and however
    the loop ends, [rabbitmq_consumer] leaves every row of the table in
    place, adding rows only after them, and never lowers the counter. *)
Theorem consumer_only_appends turns : only_appends (rabbitmq_consumer turns).
Proof.
  induction turns as [|a turns IH]; cbn [rabbitmq_consumer].
  - apply only_appends_ret.
  - apply only_appends_bind; [apply only_appends_consumer_turn|].
    intros _. exact IH.
Qed.

(** X16. A turn of the loop handles deliveries only after it has
    connected, opened a channel, declared the queue durable, set the
    prefetch count to 1 and registered the consumer, in that order; the
    deliveries are then answered one by one in order. A turn in which one of
    these calls raises answers no delivery and leaves the table as it
    was. *)
Theorem deliveries_follow_registration a w :
  let r := connect_and_consume a w in
  match setup_error a with
  | Some e =>
      r.1 = Raise e /\
      List.filter is_settlement (new_events w r.2) = [] /\
      sensor_data r.2 = sensor_data w
  | None =>
      exists rest,
        new_events w r.2 = registration ++ rest /\
        List.filter is_settlement rest = map answer (deliveries a) /\
        sensor_data r.2 = sensor_data w ++ omap stored_row (deliveries a)
  end.
Proof.
  destruct a as [ce he de qe re ds stop].
  unfold setup_error, registration, connect_and_consume, bind, print, emit,
    may_raise, raise, ret.
  cbn [connect_error channel_error declare_error qos_error register_error
       deliveries consume_end].
  destruct ce as [e|].
  { cbv zeta. cbn [fst snd].
    by rewrite (new_events_app w _ [BlockingConnection]). }
  destruct he as [e|].
  { cbv zeta. cbn [fst snd].
    by rewrite (new_events_app w _ [BlockingConnection]). }
  destruct de as [e|].
  { cbv zeta. cbn [fst snd].
    rewrite (new_events_app w _ [BlockingConnection; Channel]); [done|].
    cbn [emitted trace]. by rewrite <- !app_assoc. }
  destruct qe as [e|]; cbv beta iota zeta.
  { cbn [fst snd].
    rewrite (new_events_app w _ [BlockingConnection; Channel;
                                 QueueDeclare true;
                                 Printed WaitingForMessages]); [done|].
    cbn [emitted trace]. by rewrite <- !app_assoc. }
  destruct re as [e|]; cbv beta iota zeta.
  { cbn [fst snd].
    rewrite (new_events_app w _ [BlockingConnection; Channel;
                                 QueueDeclare true;
                                 Printed WaitingForMessages; BasicQos 1]);
      [done|].
    cbn [emitted trace]. by rewrite <- !app_assoc. }
  match goal with |- context [start_consuming ds stop ?w0] =>
    destruct (start_consuming_run ds stop w0)
      as (w1 & evs & Hs & Hrows & _ & _ & Ht & Hf)
  end.
  cbn [emitted trace sensor_data] in Ht, Hrows.
  rewrite Hs; cbn [snd]. exists evs. split; [|split].
  - apply new_events_app. rewrite Ht, <- !app_assoc. reflexivity.
  - exact Hf.
  - exact Hrows.
Qed.

(** * Properties of the publishing side *)

(** ** One publication *)

Lemma publish_accepted_and_closed env x b :
  pub_error env = None ->
  publish env x b =
    (Ok tt,
     {| published := published b ++ [message_of x];
        broker_conns :=
          ({[next_broker_conn b]} ∪ broker_conns b) ∖ {[next_broker_conn b]};
        next_broker_conn := S (next_broker_conn b);
        pub_trace := pub_trace b |}).
Proof.
  destruct env as [ce he de pe le]. unfold pub_error; cbn.
  intros Herr.
  destruct ce; [discriminate|]. destruct he; [discriminate|].
  destruct de; [discriminate|]. destruct pe; [discriminate|].
  subst le. reflexivity.
Qed.

Lemma publish_raises env x b e :
  pub_error env = Some e ->
  exists b',
    publish env x b = (Raise e, b') /\
    published b' =
      published b ++ (if accepted env then [message_of x] else []) /\
    pub_trace b' = pub_trace b /\
    (forall c, c ∈ broker_conns b -> c ∈ broker_conns b') /\
    (pub_connect_error env = None -> next_broker_conn b ∈ broker_conns b').
Proof.
  destruct env as [ce he de pe le]. unfold pub_error, accepted; cbn.
  intros Herr.
  destruct ce as [e1|].
  { injection Herr as ->. eexists. split; [reflexivity|]. cbn.
    rewrite app_nil_r. repeat split; [done|discriminate]. }
  destruct he as [e1|].
  { injection Herr as ->. eexists. split; [reflexivity|]. cbn.
    rewrite app_nil_r. repeat split; intros; set_solver. }
  destruct de as [e1|].
  { injection Herr as ->. eexists. split; [reflexivity|]. cbn.
    rewrite app_nil_r. repeat split; intros; set_solver. }
  destruct pe as [e1|].
  { injection Herr as ->. eexists. split; [reflexivity|]. cbn.
    rewrite app_nil_r. repeat split; intros; set_solver. }
  subst le. eexists. split; [reflexivity|]. cbn.
  repeat split; intros; set_solver.
Qed.

Lemma request_reading_raises data e :
  request_reading data = Raise e -> is_Exception e = true.
Proof.
  unfold request_reading. rewrite !get_float_dict.
  destruct (float_ (default (JInt 0) (data !! "co2"))) as [co2|e1] eqn:H1;
    cbn [rbind]; [|intros [= <-]; by eapply float_raises].
  destruct (float_ (default (JInt 0) (data !! "humidity"))) as [hum|e2] eqn:H2;
    cbn [rbind]; [|intros [= <-]; by eapply float_raises].
  destruct (float_ (default (JInt 0) (data !! "temperature"))) as [tmp|e3]
    eqn:H3; cbn [rbind]; [done|intros [= <-]; by eapply float_raises].
Qed.

(** X11. A request whose three fields coerce, sent while every broker call
    succeeds, is answered with success; the broker has then accepted exactly
    one more message: the encoded reading, through the default exchange, to
    queue "sensor_data", marked persistent; and the connection opened for it
    is closed again. *)
Theorem posted_reading_is_published env data x b :
  request_reading data = Ok x ->
  pub_error env = None ->
  broker_conns_fresh b ->
  let r := receive_sensor_data env data b in
  r.1 = Ok DataPublished /\
  published r.2 =
    published b ++ [{| exchange := "";
                       routing_key := "sensor_data";
                       m_body := encode x;
                       delivery_mode := 2 |}] /\
  broker_conns r.2 = broker_conns b.
Proof.
  intros Hx Herr Hfresh. cbv zeta.
  unfold receive_sensor_data, ptry_except, pbind, plift.
  rewrite Hx, (publish_accepted_and_closed env x b Herr); cbn.
  repeat split.
  apply set_eq; intros c.
  rewrite elem_of_difference, elem_of_union, elem_of_singleton.
  split; [by intros [[->|Hin] Hne]|].
  intros Hin. split; [by right|].
  intros ->. apply Hfresh in Hin. lia.
Qed.

(** X12. A request with a field that [float] does not accept is answered
    with status 400 before any broker call: no connection is opened and
    nothing is published. *)
Theorem bad_request_never_reaches_the_broker env data e b :
  request_reading data = Raise e ->
  receive_sensor_data env data b = (Raise (HTTPException 400), b).
Proof.
  intros Hx.
  unfold receive_sensor_data, ptry_except, pbind, plift.
  by rewrite Hx, (request_reading_raises _ _ Hx).
Qed.

(** X13. When a broker call raises an exception the request is answered
    with status 400. The message is then with the broker exactly when the
    raise came after [basic_publish], that is from [close]; and when the
    connection had been opened, it is still open. *)
Theorem broker_failure_is_answered_400 env data x e b :
  request_reading data = Ok x ->
  pub_error env = Some e ->
  is_Exception e = true ->
  let r := receive_sensor_data env data b in
  r.1 = Raise (HTTPException 400) /\
  published r.2 =
    published b ++ (if accepted env then [message_of x] else []) /\
  (pub_connect_error env = None -> next_broker_conn b ∈ broker_conns r.2).
Proof.
  intros Hx Herr He. cbv zeta.
  destruct (publish_raises env x b e Herr) as (b' & Hp & Hpub & _ & _ & Hopen).
  unfold receive_sensor_data, ptry_except, pbind, plift.
  rewrite Hx, Hp, He; cbn. by repeat split.
Qed.

(** ** The generator *)

Lemma new_pub_events_app b b' evs :
  pub_trace b' = pub_trace b ++ evs -> new_pub_events b b' = evs.
Proof. unfold new_pub_events. intros ->. by rewrite drop_app_length. Qed.

Lemma dummy_cycle_returns c b :
  (forall e, pub_error (cycle_env c) = Some e -> is_Exception e = true) ->
  exists b' evs,
    dummy_cycle c b = (Ok tt, b') /\
    published b' = published b ++ option_list (cycle_message c) /\
    pub_trace b' = pub_trace b ++ evs /\
    pub_sleeps evs = [30].
Proof.
  intros He. unfold dummy_cycle, cycle_message, ptry_except, pbind, pemit.
  destruct (pub_error (cycle_env c)) as [e|] eqn:Herr.
  - destruct (publish_raises (cycle_env c) (random_reading c) b e Herr)
      as (b' & Hp & Hpub & Ht & _).
    rewrite Hp, (He e eq_refl); cbn.
    eexists _, [PubPrinted (ErrorPublishing e); AsyncioSleep 30].
    split; [reflexivity|]. cbn. rewrite Hpub, Ht, <- app_assoc.
    by destruct (accepted (cycle_env c)).
  - rewrite (publish_accepted_and_closed _ _ _ Herr); cbn.
    eexists _, [PubPrinted (PublishedToRabbitMQ (random_reading c));
                AsyncioSleep 30].
    split; [reflexivity|]. cbn. rewrite <- app_assoc.
    assert (accepted (cycle_env c) = true) as ->; [|done].
    destruct (cycle_env c) as [ce he de pe le]; unfold pub_error, accepted in *;
      cbn in *.
    destruct ce; [discriminate|]. destruct he; [discriminate|].
    destruct de; [discriminate|]. by destruct pe.
Qed.

(** X14. While every raise of the broker is an exception, the generator
    keeps running: it waits 10 seconds once, then 30 seconds after every
    turn, published or not; and the broker has accepted, in order, the
    encoded reading of each turn in which nothing raised up to
    [basic_publish]. *)
Theorem generator_keeps_cycling cycles b :
  Forall (fun c => forall e, pub_error (cycle_env c) = Some e ->
                             is_Exception e = true) cycles ->
  let r := generate_dummy_data cycles b in
  r.1 = Ok tt /\
  pub_sleeps (new_pub_events b r.2) = 10 :: replicate (length cycles) 30 /\
  published r.2 = published b ++ omap cycle_message cycles.
Proof.
  intros Hcycles.
  assert (forall b0, exists b' evs,
            dummy_cycles cycles b0 = (Ok tt, b') /\
            published b' = published b0 ++ omap cycle_message cycles /\
            pub_trace b' = pub_trace b0 ++ evs /\
            pub_sleeps evs = replicate (length cycles) 30) as Hrun.
  { induction Hcycles as [|c cycles Hc _ IH]; intros b0.
    - exists b0, []. cbn. by rewrite !app_nil_r.
    - destruct (dummy_cycle_returns c b0 Hc) as (b1 & evs1 & Hd & Hp1 & Ht1 & Hs1).
      destruct (IH b1) as (b2 & evs2 & Hr & Hp2 & Ht2 & Hs2).
      exists b2, (evs1 ++ evs2). cbn [dummy_cycles]. unfold pbind.
      rewrite Hd, Hr. split; [reflexivity|]. split; [|split].
      + rewrite Hp2, Hp1, <- app_assoc. cbn [omap list_omap].
        by destruct (cycle_message c).
      + by rewrite Ht2, Ht1, app_assoc.
      + unfold pub_sleeps in *. by rewrite omap_app, Hs1, Hs2. }
  cbv zeta. unfold generate_dummy_data, pbind, pemit.
  match goal with |- context [dummy_cycles cycles ?b0] =>
    destruct (Hrun b0) as (b' & evs & Hr & Hp & Ht & Hs)
  end.
  rewrite Hr; cbn [fst snd]. cbn in Hp, Ht.
  split; [reflexivity|]. split; [|exact Hp].
  rewrite (new_pub_events_app b b' ([AsyncioSleep 10] ++ evs))
    by (by rewrite Ht, <- app_assoc).
  unfold pub_sleeps in *. by rewrite omap_app, Hs.
Qed.

(** * From the request to the table *)

Lemma decode_message_dict x :
  json_loads (encode x) = Some (message_dict x) -> decode (encode x) = Ok x.
Proof.
  intros Hl. destruct x as [[co2 humidity] temperature].
  apply (decode_dict _ _ _ _ _ Hl).
  unfold field. by rewrite !lookup_insert.
Qed.

(** X15. A reading posted to [receive_sensor_data] while the broker works
    is what the consumer stores: when [json.loads] reads back what
    [json.dumps] wrote, [callback] on the body of the published message,
    with the store available, adds exactly one row, holding the coerced
    values of the request, sets the gauges to them and acknowledges the
    delivery. *)
Theorem posted_reading_reaches_the_table env data x b senv tag w :
  request_reading data = Ok x ->
  pub_error env = None ->
  json_loads (encode x) = Some (message_dict x) ->
  store_available senv ->
  exists m,
    last (published (receive_sensor_data env data b).2) = Some m /\
    routing_key m = QUEUE_NAME /\
    let w' := (callback senv tag (m_body m) w).2 in
    sensor_data w' = sensor_data w ++ [row_of (now senv) x] /\
    gauges (metrics w') = x /\
    acknowledgement senv tag (m_body m) w = [BasicAck tag].
Proof.
  intros Hx Herr Hl [Hc Hs].
  exists (message_of x). split; [|split; [reflexivity|]].
  - unfold receive_sensor_data, ptry_except, pbind, plift.
    rewrite Hx, (publish_accepted_and_closed env x b Herr); cbn.
    apply last_snoc.
  - cbv zeta. cbn [message_of m_body].
    pose proof (decode_message_dict x Hl) as Hd.
    destruct x as [[co2 humidity] temperature].
    pose proof (process_sensor_data_stored senv co2 humidity temperature w
                  Hc Hs) as Hp.
    rewrite (callback_decoded _ _ _ (co2, humidity, temperature) _ _ Hd Hp).
    split; [reflexivity|]. split; [reflexivity|].
    by eapply acknowledgement_decoded.
Qed.

End Server.

(** * The model at sample inputs *)

(** The sample message is stored, acknowledged and shown by the gauges. *)
Example sample_message_processed :
  callback sample_float_of_str sample_loads (env_up 5) 1 body_550 world0 =
    (Ok tt,
     {| metrics := {| co2_gauge := 550%float;
                      humidity_gauge := 45%float;
                      temperature_gauge := 22.5%float;
                      data_received_counter := 1 |};
        sensor_data := [row_of 5 (550%float, 45%float, 22.5%float)];
        open_conns := ∅;
        next_conn := 1;
        trace := [Printed (Processed (550%float, 45%float, 22.5%float));
                  BasicAck 1;
                  Printed (Received (550%float, 45%float, 22.5%float))] |}).
Proof. vm_compute. reflexivity. Qed.

(** An empty object decodes to three zeros. *)
Example empty_object_decodes_to_zeros :
  decode sample_float_of_str sample_loads body_empty =
    Ok (0%float, 0%float, 0%float).
Proof. vm_compute. reflexivity. Qed.

(** A JSON array parses, but has no [get]: it is rejected like text that
    does not parse. *)
Example array_is_rejected :
  decode sample_float_of_str sample_loads body_list = Raise AttributeError /\
  acknowledgement sample_float_of_str sample_loads (env_up 5) 7 body_list
    world0 = [BasicNack 7 false].
Proof. split; vm_compute; reflexivity. Qed.

(** An integer too large for a float is not coercible. *)
Example huge_integer_is_not_coercible :
  float_ sample_float_of_str (JInt (2 ^ 1024)) = Raise OverflowError /\
  float_ sample_float_of_str (JInt (2 ^ 53 + 1)) = Ok 9007199254740992%float.
Proof. split; vm_compute; reflexivity. Qed.

(** A ["timestamp"] key in the message is not read: the row is stamped with
    the clock, here 5. *)
Example stamped_message_gets_clock_time :
  sensor_data
    (callback sample_float_of_str sample_loads (env_up 5) 1 body_stamped
       world0).2 = [row_of 5 (1%float, 0%float, 0%float)].
Proof. vm_compute. reflexivity. Qed.

(** The readings above are compared as values. The comparison of IEEE 754,
    which Python's [==] on two floats is, does not hold between NaN and
    itself. *)
Example ieee_comparison_at_nan :
  PrimFloat.eqb nan nan = false /\ PrimFloat.Leibniz.eqb nan nan = true.
Proof. split; reflexivity. Qed.

(** A raise that is not an [Exception] ends the loop: the turns after it
    are not run. *)
Example keyboard_interrupt_ends_the_loop :
  rabbitmq_consumer sample_float_of_str sample_loads
    [ {| connect_error := Some KeyboardInterrupt;
         channel_error := None;
         declare_error := None;
         qos_error := None;
         register_error := None;
         deliveries := [];
         consume_end := None |};
      {| connect_error := None;
         channel_error := None;
         declare_error := None;
         qos_error := None;
         register_error := None;
         deliveries := [];
         consume_end := None |} ] world0 =
    (Raise KeyboardInterrupt, emitted [BlockingConnection] world0).
Proof. vm_compute. reflexivity. Qed.

(** The three sample turns: connect, wait, connect, wait, connect. *)
Example sample_turns_supervision :
  List.filter is_supervision
    (trace (rabbitmq_consumer sample_float_of_str sample_loads sample_turns
              world0).2) =
    [BlockingConnection; Sleep 5; BlockingConnection; Sleep 5;
     BlockingConnection].
Proof. vm_compute. reflexivity. Qed.

(** * The claims at sample inputs *)

(** C1 as stated fails: with the database unreachable, the sample message
    is acknowledged, which is not how [RequeueOrRetry] is shown. *)
Lemma store_failure_is_acknowledged_not_requeued :
  decode sample_float_of_str sample_loads body_550 =
    Ok (550%float, 45%float, 22.5%float) /\
  store_unavailable (env_down 5) /\
  acknowledgement sample_float_of_str sample_loads (env_down 5) 1 body_550
    world0 = [BasicAck 1] /\
  acknowledgement sample_float_of_str sample_loads (env_down 5) 1 body_550
    world0 <> [transport RequeueOrRetry 1].
Proof.
  split; [vm_compute; reflexivity|].
  split; [left; reflexivity|].
  split; [vm_compute; reflexivity|].
  intros H. vm_compute in H. discriminate H.
Qed.

Lemma store_failure_observed_then_acknowledged_witness :
  decode sample_float_of_str sample_loads body_550 =
    Ok (550%float, 45%float, 22.5%float) /\
  store_unavailable (env_write_fails 5) /\
  let w' := (callback sample_float_of_str sample_loads (env_write_fails 5) 1
               body_550 world0).2 in
  (callback sample_float_of_str sample_loads (env_write_fails 5) 1
     body_550 world0).1 = Ok tt /\
  gauges (metrics w') = (550%float, 45%float, 22.5%float) /\
  sensor_data w' = sensor_data world0 /\
  acknowledgement sample_float_of_str sample_loads (env_write_fails 5) 1
    body_550 world0 = [transport Ack 1] /\
  exists e, Printed (ErrorProcessingData e) ∈ new_events world0 w'.
Proof.
  assert (decode sample_float_of_str sample_loads body_550 =
            Ok (550%float, 45%float, 22.5%float)) as Hd
    by (vm_compute; reflexivity).
  assert (store_unavailable (env_write_fails 5)) as Hdown
    by (right; reflexivity).
  exact (conj Hd (conj Hdown
    (store_failure_observed_then_acknowledged sample_float_of_str
       sample_loads (env_write_fails 5) 1 body_550 _ world0 Hd Hdown))).
Defined.

(** C2 as stated fails: the table holds a reading stamped 100 and the clock
    reads 50 when the sample message is stored; the latest row is then still
    the one stamped 100, with other values. *)
Lemma later_row_hides_new_reading :
  decode sample_float_of_str sample_loads body_550 =
    Ok (550%float, 45%float, 22.5%float) /\
  store_available (env_up 50) /\
  (get_latest_data (env_up 60)
     (callback sample_float_of_str sample_loads (env_up 50) 1 body_550
        world_late).2).1 = Ok (LatestReading row_late) /\
  values row_late <> (550%float, 45%float, 22.5%float).
Proof.
  split; [vm_compute; reflexivity|].
  split; [split; reflexivity|].
  split; [vm_compute; reflexivity|].
  intros H.
  apply (f_equal (fun x : reading => PrimFloat.eqb x.1.1 550%float)) in H.
  vm_compute in H. discriminate H.
Qed.

Lemma stored_reading_is_latest_witness :
  decode sample_float_of_str sample_loads body_550 =
    Ok (550%float, 45%float, 22.5%float) /\
  store_available (env_up 200) /\
  (forall r, r ∈ sensor_data world_late -> timestamp r < now (env_up 200)) /\
  let w' := (callback sample_float_of_str sample_loads (env_up 200) 1
               body_550 world_late).2 in
  acknowledgement sample_float_of_str sample_loads (env_up 200) 1 body_550
    world_late = [transport Ack 1] /\
  data_received_counter (metrics w') =
    S (data_received_counter (metrics world_late)) /\
  forall env', store_available env' ->
    exists r, (get_latest_data env' w').1 = Ok (LatestReading r) /\
              values r = (550%float, 45%float, 22.5%float) /\
              timestamp r = now (env_up 200).
Proof.
  assert (decode sample_float_of_str sample_loads body_550 =
            Ok (550%float, 45%float, 22.5%float)) as Hd
    by (vm_compute; reflexivity).
  assert (store_available (env_up 200)) as Hup by (split; reflexivity).
  assert (forall r, r ∈ sensor_data world_late ->
                    timestamp r < now (env_up 200)) as Hclock.
  { intros r Hr. apply list_elem_of_singleton in Hr. subst r. reflexivity. }
  exact (conj Hd (conj Hup (conj Hclock
    (stored_reading_is_latest sample_float_of_str sample_loads (env_up 200) 1
       body_550 _ world_late Hd Hup Hclock)))).
Defined.


Lemma malformed_message_rejected_witness :
  decode sample_float_of_str sample_loads body_not_json =
    Raise JSONDecodeError /\
  let w' := (callback sample_float_of_str sample_loads (env_up 5) 1
               body_not_json world_late).2 in
  acknowledgement sample_float_of_str sample_loads (env_up 5) 1
    body_not_json world_late = [BasicNack 1 false] /\
  metrics w' = metrics world_late /\
  sensor_data w' = sensor_data world_late /\
  open_conns w' = open_conns world_late.
Proof.
  assert (decode sample_float_of_str sample_loads body_not_json =
            Raise JSONDecodeError) as Hd by (vm_compute; reflexivity).
  exact (conj Hd
    (malformed_message_rejected sample_float_of_str sample_loads (env_up 5) 1
       body_not_json _ world_late Hd)).
Defined.

Lemma consumer_reconnects_forever_witness :
  Forall (fun a => forall e, turn_error a = Some e -> is_Exception e = true)
    sample_turns /\
  let r := rabbitmq_consumer sample_float_of_str sample_loads sample_turns
             world0 in
  r.1 = Ok tt /\
  List.filter is_supervision (new_events world0 r.2) =
    flat_map turn_pattern sample_turns /\
  forall seconds, Sleep seconds ∈ new_events world0 r.2 -> seconds = 5.
Proof.
  assert (Forall (fun a => forall e, turn_error a = Some e ->
                                     is_Exception e = true) sample_turns)
    as Hturns.
  { unfold sample_turns. repeat constructor; intros e He; cbn in He;
      inversion He; reflexivity. }
  exact (conj Hturns
    (consumer_reconnects_forever sample_float_of_str sample_loads
       sample_turns world0 Hturns)).
Defined.

Lemma decode_coerces_and_defaults_witness :
  sample_loads body_coerced =
    Some (JDict dict_coerced) /\
  (decode sample_float_of_str sample_loads body_coerced =
     Ok (550%float, 1%float, 0%float) <->
   field sample_float_of_str dict_coerced "co2" 550%float /\
   field sample_float_of_str dict_coerced "humidity" 1%float /\
   field sample_float_of_str dict_coerced "temperature" 0%float).
Proof.
  assert (sample_loads body_coerced =
            Some (JDict dict_coerced)) as Hl
    by (vm_compute; reflexivity).
  exact (conj Hl
    (decode_coerces_and_defaults sample_float_of_str sample_loads
       body_coerced _ 550%float 1%float 0%float Hl)).
Defined.

Lemma counter_counts_received_messages_witness :
  decode sample_float_of_str sample_loads body_550 =
    Ok (550%float, 45%float, 22.5%float) /\
  store_unavailable (env_down 5) /\
  let w' := (callback sample_float_of_str sample_loads (env_down 5) 1
               body_550 world_late).2 in
  (callback sample_float_of_str sample_loads (env_down 5) 1 body_550
     world_late).1 = Ok tt /\
  data_received_counter (metrics w') =
    S (data_received_counter (metrics world_late)) /\
  sensor_data w' = sensor_data world_late.
Proof.
  assert (decode sample_float_of_str sample_loads body_550 =
            Ok (550%float, 45%float, 22.5%float)) as Hd
    by (vm_compute; reflexivity).
  assert (store_unavailable (env_down 5)) as Hdown by (left; reflexivity).
  exact (conj Hd (conj Hdown
    (counter_counts_received_messages sample_float_of_str sample_loads
       (env_down 5) 1 body_550 _ world_late Hd Hdown))).
Defined.


(** * The publishing side at sample inputs *)

(** The sample request is published as [body_550], persistent, to
    "sensor_data". *)
Example sample_request_published :
  receive_sensor_data sample_float_of_str sample_dumps pub_ok dict_550 broker0 =
    (Ok DataPublished,
     {| published := [{| exchange := "";
                         routing_key := "sensor_data";
                         m_body := body_550;
                         delivery_mode := 2 |}];
        broker_conns := ∅;
        next_broker_conn := 1;
        pub_trace := [] |}).
Proof. vm_compute. reflexivity. Qed.

(** When only [close] raises, the request is answered 400 although the
    message is with the broker. *)
Example close_failure_answers_400_after_publishing :
  (receive_sensor_data sample_float_of_str sample_dumps pub_close_fails
     dict_550 broker0).1 = Raise (HTTPException 400) /\
  length (published
            (receive_sensor_data sample_float_of_str sample_dumps
               pub_close_fails dict_550 broker0).2) = 1%nat.
Proof. split; vm_compute; reflexivity. Qed.

(** The generator through a turn with the broker down and one with it up. *)
Example sample_cycles_run :
  generate_dummy_data sample_dumps sample_cycles broker0 =
    (Ok tt,
     {| published := [{| exchange := "";
                         routing_key := "sensor_data";
                         m_body := body_550;
                         delivery_mode := 2 |}];
        broker_conns := ∅;
        next_broker_conn := 1;
        pub_trace :=
          [AsyncioSleep 10;
           PubPrinted (ErrorPublishing AMQPConnectionError);
           AsyncioSleep 30;
           PubPrinted (PublishedToRabbitMQ (550%float, 45%float, 22.5%float));
           AsyncioSleep 30] |}).
Proof. vm_compute. reflexivity. Qed.

(** The three sample deliveries: one row, two counted, three answered, one
    connection left open. *)
Example sample_deliveries_run :
  let w' := (start_consuming sample_float_of_str sample_loads
               sample_deliveries None world0).2 in
  sensor_data w' = [row_of 5 (550%float, 45%float, 22.5%float)] /\
  data_received_counter (metrics w') = 2%nat /\
  gauges (metrics w') = (550%float, 1%float, 0%float) /\
  List.filter is_settlement (trace w') =
    [BasicAck 1; BasicNack 2 false; BasicAck 3] /\
  open_conns w' = {[1%nat]}.
Proof. cbv zeta. repeat split; vm_compute; reflexivity. Qed.

(** * The further properties at sample inputs *)

Lemma failed_inserts_leave_connections_open_witness :
  conns_fresh world0 /\
  let w' := (start_consuming sample_float_of_str sample_loads
               sample_deliveries None world0).2 in
  conns_fresh w' /\
  open_conns world0 ⊆ open_conns w' /\
  size (open_conns w') =
    (size (open_conns world0) +
     length (List.filter (leaks sample_float_of_str sample_loads)
               sample_deliveries))%nat.
Proof.
  assert (conns_fresh world0) as Hfresh.
  { intros c Hc. cbn in Hc. by apply not_elem_of_empty in Hc. }
  exact (conj Hfresh
    (failed_inserts_leave_connections_open sample_float_of_str sample_loads
       sample_deliveries None world0 Hfresh)).
Defined.

Lemma get_latest_data_returns_a_newest_row_witness :
  store_available (env_up 200) /\
  match (get_latest_data (env_up 200) world_late).1 with
  | Ok NoDataAvailable => sensor_data world_late = []
  | Ok (LatestReading r) =>
      r ∈ sensor_data world_late /\
      forall r', r' ∈ sensor_data world_late -> timestamp r' <= timestamp r
  | Raise _ => False
  end.
Proof.
  assert (store_available (env_up 200)) as Hup by (split; reflexivity).
  exact (conj Hup
    (get_latest_data_returns_a_newest_row (env_up 200) world_late Hup)).
Defined.

Lemma decode_reads_only_its_keys_witness :
  sample_loads_more body_stamped = Some (JDict dict_stamped) /\
  sample_loads_more body_co2_only = Some (JDict dict_co2_only) /\
  (forall key, key ∈ message_keys ->
               dict_stamped !! key = dict_co2_only !! key) /\
  decode sample_float_of_str sample_loads_more body_stamped =
    decode sample_float_of_str sample_loads_more body_co2_only.
Proof.
  assert (sample_loads_more body_stamped = Some (JDict dict_stamped)) as H1
    by (vm_compute; reflexivity).
  assert (sample_loads_more body_co2_only = Some (JDict dict_co2_only)) as H2
    by (vm_compute; reflexivity).
  assert (forall key, key ∈ message_keys ->
                      dict_stamped !! key = dict_co2_only !! key) as Hkeys.
  { intros key Hkey. unfold message_keys in Hkey.
    repeat (apply elem_of_cons in Hkey as [->|Hkey]);
      try (vm_compute; reflexivity).
    by apply elem_of_nil in Hkey. }
  exact (conj H1 (conj H2 (conj Hkeys
    (decode_reads_only_its_keys sample_float_of_str sample_loads_more
       body_stamped body_co2_only dict_stamped dict_co2_only H1 H2 Hkeys)))).
Defined.

Lemma interrupt_ends_the_consumer_witness :
  turn_error turn_interrupted = Some KeyboardInterrupt /\
  is_Exception KeyboardInterrupt = false /\
  let r := rabbitmq_consumer sample_float_of_str sample_loads
             (turn_interrupted :: sample_turns) world0 in
  r = connect_and_consume sample_float_of_str sample_loads turn_interrupted
        world0 /\
  r.1 = Raise KeyboardInterrupt /\
  forall seconds, Sleep seconds ∉ new_events world0 r.2.
Proof.
  exact (conj eq_refl (conj eq_refl
    (interrupt_ends_the_consumer sample_float_of_str sample_loads
       turn_interrupted sample_turns world0 KeyboardInterrupt
       eq_refl eq_refl))).
Defined.

Lemma posted_reading_is_published_witness :
  request_reading sample_float_of_str dict_coerced =
    Ok (550%float, 1%float, 0%float) /\
  pub_error pub_ok = None /\
  broker_conns_fresh broker0 /\
  let r := receive_sensor_data sample_float_of_str sample_dumps pub_ok
             dict_coerced broker0 in
  r.1 = Ok DataPublished /\
  published r.2 =
    published broker0 ++
      [{| exchange := "";
          routing_key := "sensor_data";
          m_body := encode sample_dumps (550%float, 1%float, 0%float);
          delivery_mode := 2 |}] /\
  broker_conns r.2 = broker_conns broker0.
Proof.
  assert (request_reading sample_float_of_str dict_coerced =
            Ok (550%float, 1%float, 0%float)) as Hx
    by (vm_compute; reflexivity).
  assert (broker_conns_fresh broker0) as Hfresh.
  { intros c Hc. cbn in Hc. by apply not_elem_of_empty in Hc. }
  exact (conj Hx (conj eq_refl (conj Hfresh
    (posted_reading_is_published sample_float_of_str sample_dumps pub_ok
       dict_coerced _ broker0 Hx eq_refl Hfresh)))).
Defined.

Lemma bad_request_never_reaches_the_broker_witness :
  request_reading sample_float_of_str dict_null = Raise TypeError /\
  receive_sensor_data sample_float_of_str sample_dumps pub_ok dict_null
    broker0 = (Raise (HTTPException 400), broker0).
Proof.
  assert (request_reading sample_float_of_str dict_null = Raise TypeError)
    as Hx by (vm_compute; reflexivity).
  exact (conj Hx
    (bad_request_never_reaches_the_broker sample_float_of_str sample_dumps
       pub_ok dict_null TypeError broker0 Hx)).
Defined.

Lemma broker_failure_is_answered_400_witness :
  request_reading sample_float_of_str dict_550 =
    Ok (550%float, 45%float, 22.5%float) /\
  pub_error pub_close_fails = Some AMQPConnectionError /\
  is_Exception AMQPConnectionError = true /\
  let r := receive_sensor_data sample_float_of_str sample_dumps
             pub_close_fails dict_550 broker0 in
  r.1 = Raise (HTTPException 400) /\
  published r.2 =
    published broker0 ++
      (if accepted pub_close_fails
       then [message_of sample_dumps (550%float, 45%float, 22.5%float)]
       else []) /\
  (pub_connect_error pub_close_fails = None ->
   next_broker_conn broker0 ∈ broker_conns r.2).
Proof.
  assert (request_reading sample_float_of_str dict_550 =
            Ok (550%float, 45%float, 22.5%float)) as Hx
    by (vm_compute; reflexivity).
  exact (conj Hx (conj eq_refl (conj eq_refl
    (broker_failure_is_answered_400 sample_float_of_str sample_dumps
       pub_close_fails dict_550 _ AMQPConnectionError broker0
       Hx eq_refl eq_refl)))).
Defined.

Lemma generator_keeps_cycling_witness :
  Forall (fun c => forall e, pub_error (cycle_env c) = Some e ->
                             is_Exception e = true) sample_cycles /\
  let r := generate_dummy_data sample_dumps sample_cycles broker0 in
  r.1 = Ok tt /\
  pub_sleeps (new_pub_events broker0 r.2) =
    10 :: replicate (length sample_cycles) 30 /\
  published r.2 =
    published broker0 ++ omap (cycle_message sample_dumps) sample_cycles.
Proof.
  assert (Forall (fun c => forall e, pub_error (cycle_env c) = Some e ->
                                     is_Exception e = true) sample_cycles)
    as Hcycles.
  { unfold sample_cycles. repeat constructor; intros e He; cbn in He;
      inversion He; reflexivity. }
  exact (conj Hcycles
    (generator_keeps_cycling sample_dumps sample_cycles broker0 Hcycles)).
Defined.

Lemma posted_reading_reaches_the_table_witness :
  request_reading sample_float_of_str dict_550 =
    Ok (550%float, 45%float, 22.5%float) /\
  pub_error pub_ok = None /\
  sample_loads (encode sample_dumps (550%float, 45%float, 22.5%float)) =
    Some (message_dict (550%float, 45%float, 22.5%float)) /\
  store_available (env_up 5) /\
  exists m,
    last (published (receive_sensor_data sample_float_of_str sample_dumps
                       pub_ok dict_550 broker0).2) = Some m /\
    routing_key m = QUEUE_NAME /\
    let w' := (callback sample_float_of_str sample_loads (env_up 5) 1
                 (m_body m) world0).2 in
    sensor_data w' =
      sensor_data world0 ++ [row_of (now (env_up 5))
                               (550%float, 45%float, 22.5%float)] /\
    gauges (metrics w') = (550%float, 45%float, 22.5%float) /\
    acknowledgement sample_float_of_str sample_loads (env_up 5) 1 (m_body m)
      world0 = [BasicAck 1].
Proof.
  assert (request_reading sample_float_of_str dict_550 =
            Ok (550%float, 45%float, 22.5%float)) as Hx
    by (vm_compute; reflexivity).
  assert (sample_loads (encode sample_dumps (550%float, 45%float, 22.5%float))
          = Some (message_dict (550%float, 45%float, 22.5%float))) as Hl
    by (vm_compute; reflexivity).
  assert (store_available (env_up 5)) as Hup by (split; reflexivity).
  exact (conj Hx (conj eq_refl (conj Hl (conj Hup
    (posted_reading_reaches_the_table sample_float_of_str sample_loads
       sample_dumps pub_ok dict_550 _ broker0 (env_up 5) 1 world0
       Hx eq_refl Hl Hup))))).
Defined.
